(** * kharcha: the ledger consistency core

    A shallow embedding of the balance-mutating code of the Django
    application: [apps/accounts/models.py], [apps/expenses/models.py],
    [apps/income/models.py] and the views that call them.

    Conventions of the embedding.
    - A [DecimalField(decimal_places=2)] value is a [Z] counting hundredths
      (500.00 is [50000]).  [Decimal] arithmetic and comparison are exact, so
      [+], [-] and [<?] on [Z] are the operations of the source.
    - A primary key is a [positive]; a table is a [gmap positive row].  A
      posted id is a key where the code looks the row up before it does
      anything else with the id; in [process_transfer], which compares the
      two posted ids first, it is the posted [string].
    - The database is the record [Store].  A Python model instance is a value
      held by the running request: its primary key (absent before the first
      save) and its fields.  A foreign key field of an instance is the id of the
      related row together with the instance cached on the field, if any:
      without one the related row is read when the attribute is first used.
    - Code runs in the monad [M]: it threads the [Store] and may raise.  An
      exception leaves the writes made so far in place; [atomic], the
      embedding of [with transaction.atomic():], is what rolls them back.
    - [edit_expense] takes its amounts through [float].  A float is the
      rational number it holds, a [Q]; [float(x)] and the float subtraction
      round to the nearest double, [Decimal(str(f))] is the shortest decimal
      that reads back as [f], and a [DecimalField] rounds what it is given to
      hundredths when the row is written. *)

From Stdlib Require Import ZArith QArith Qpower Lqa String Ascii List.
From stdpp Require Import gmap strings.

Local Open Scope Z_scope.

(** ** Rows *)

Module Models.

(** [accounts.Account]: user, name, balance, is_active. *)
Record Account := mkAccount {
  acc_user : positive;
  acc_name : string;
  balance : Z;
  acc_is_active : bool
}.

(** [accounts.Contact] and [dashboard.Category]: only the owner matters here. *)
Record Contact := mkContact { contact_user : positive; contact_name : string }.
Record Category := mkCategory { cat_user : positive; cat_name : string }.

(** [expenses.Expense]. *)
Record Expense := mkExpense {
  exp_user : positive;
  exp_account : positive;
  exp_category : option positive;
  exp_title : string;
  exp_amount : Z;
  exp_is_active : bool
}.

(** [income.Income]. *)
Record Income := mkIncome {
  inc_user : positive;
  inc_account : positive;
  inc_category : option positive;
  inc_source : string;
  inc_amount : Z;
  inc_is_active : bool
}.

(** [accounts.Transfer]. *)
Record Transfer := mkTransfer {
  tr_user : positive;
  tr_from_account : positive;
  tr_to_account : positive;
  tr_amount : Z
}.

(** [accounts.Debt]; [debt_type] is a [CharField], its choices are not
    enforced by [objects.create]. *)
Record Debt := mkDebt {
  debt_user : positive;
  debt_contact : positive;
  initial_amount : Z;
  remaining_amount : Z;
  debt_type : string;
  debt_account : positive;
  is_settled : bool
}.

(** [accounts.DebtPayment]. *)
Record DebtPayment := mkDebtPayment {
  dp_debt : positive;
  dp_account : positive;
  amount_paid : Z
}.

(** The database.  [account_saves] is the trace of the [self.save()] calls
    made by [Account.deposit] and [Account.withdraw], newest first: the
    account written and the balance written.  It is what "one balance
    mutation" counts. *)
Record Store := mkStore {
  accounts : gmap positive Account;
  categories : gmap positive Category;
  contacts : gmap positive Contact;
  expenses : gmap positive Expense;
  incomes : gmap positive Income;
  transfers : gmap positive Transfer;
  debts : gmap positive Debt;
  payments : gmap positive DebtPayment;
  account_saves : list (positive * Z)
}.

Definition set_accounts (f : gmap positive Account -> gmap positive Account)
    (log : list (positive * Z) -> list (positive * Z)) (s : Store) : Store :=
  mkStore (f (accounts s)) (categories s) (contacts s) (expenses s) (incomes s)
          (transfers s) (debts s) (payments s) (log (account_saves s)).

Definition set_expenses (f : gmap positive Expense -> gmap positive Expense) (s : Store) : Store :=
  mkStore (accounts s) (categories s) (contacts s) (f (expenses s)) (incomes s)
          (transfers s) (debts s) (payments s) (account_saves s).

Definition set_incomes (f : gmap positive Income -> gmap positive Income) (s : Store) : Store :=
  mkStore (accounts s) (categories s) (contacts s) (expenses s) (f (incomes s))
          (transfers s) (debts s) (payments s) (account_saves s).

Definition set_transfers (f : gmap positive Transfer -> gmap positive Transfer) (s : Store) : Store :=
  mkStore (accounts s) (categories s) (contacts s) (expenses s) (incomes s)
          (f (transfers s)) (debts s) (payments s) (account_saves s).

Definition set_debts (f : gmap positive Debt -> gmap positive Debt) (s : Store) : Store :=
  mkStore (accounts s) (categories s) (contacts s) (expenses s) (incomes s)
          (transfers s) (f (debts s)) (payments s) (account_saves s).

Definition set_payments (f : gmap positive DebtPayment -> gmap positive DebtPayment) (s : Store) : Store :=
  mkStore (accounts s) (categories s) (contacts s) (expenses s) (incomes s)
          (transfers s) (debts s) (f (payments s)) (account_saves s).

End Models.
Export Models.

(** ** The request monad *)

(** What a request can raise.  [InsufficientFunds] and [OverPayment] are the
    two [ValidationError]s of [accounts/models.py]; [Http404] is
    [get_object_or_404] finding no row; [DoesNotExist] is a foreign key
    attribute whose row is missing; [ValueError] is a posted id that is not
    a number; [ForeignKeyViolation] is the [IntegrityError] of a foreign key
    that names no row when the transaction commits; [NoReverseMatch] is
    [redirect] to a URL name that [core/urls.py] does not define.  Two error
    messages that the views report without raising are results of the same
    kind: [SameAccount] ("Cannot transfer to the same account.") and
    [InvalidForm] ("Please fill all required fields correctly."); no write
    precedes either. *)
Inductive error :=
| InsufficientFunds
| OverPayment
| SameAccount
| Http404
| DoesNotExist
| InvalidForm
| ValueError
| ForeignKeyViolation
| NoReverseMatch.

Definition M (A : Type) : Type := Store -> Store * (error + A).

#[global] Instance M_ret : MRet M := fun A (x : A) s => (s, inr x).

#[global] Instance M_bind : MBind M := fun A B (f : A -> M B) (m : M A) s =>
  match m s with
  | (s', inr x) => f x s'
  | (s', inl e) => (s', inl e)
  end.

Definition raise {A} (e : error) : M A := fun s => (s, inl e).
Definition get_store : M Store := fun s => (s, inr s).
Definition modify (f : Store -> Store) : M unit := fun s => (f s, inr tt).

(** [with transaction.atomic(): body]: when [body] raises, the writes it made
    are undone and the exception goes on. *)
Definition atomic {A} (body : M A) : M A := fun s =>
  match body s with
  | (s', inr x) => (s', inr x)
  | (_, inl e) => (s, inl e)
  end.

(** ** Reading rows *)

(** [get_object_or_404(Model, id=id, user=user)]. *)
Definition get_object_or_404 {A} (table : Store -> gmap positive A) (owner : A -> positive)
    (id user : positive) : M (positive * A) :=
  s ← get_store;
  match table s !! id with
  | Some obj => if decide (owner obj = user) then mret (id, obj) else raise Http404
  | None => raise Http404
  end.

(** The primary key the database gives a new row. *)
Definition new_pk {A} (table : gmap positive A) : positive := fresh (dom table).

(** [instance.account] for a foreign key [id]: the instance cached on the
    field when there is one, else the row read now. *)
Definition related {A} (table : Store -> gmap positive A) (id : positive) (cache : option A)
    : M (positive * A) :=
  match cache with
  | Some obj => mret (id, obj)
  | None =>
      s ← get_store;
      match table s !! id with
      | Some obj => mret (id, obj)
      | None => raise DoesNotExist
      end
  end.

(** [super().save()]: the row is written under its primary key, a new
    instance gets the next key of its table. *)
Definition Model_save {A} (table : Store -> gmap positive A)
    (set : (gmap positive A -> gmap positive A) -> Store -> Store)
    (pk : option positive) (row : A) : M positive :=
  s ← get_store;
  let id := match pk with Some id => id | None => new_pk (table s) end in
  _ ← modify (set (<[id := row]>));
  mret id.

(** The deferred [FOREIGN KEY] check the database makes when the transaction
    commits: the key written in a new row must name a row of [table]. *)
Definition check_foreign_key {A} (table : Store -> gmap positive A) (id : positive) : M unit :=
  s ← get_store;
  match table s !! id with
  | Some _ => mret tt
  | None => raise ForeignKeyViolation
  end.

(** ** Posted ids *)

(** A posted id is a string.  Where the code hands it to the database as a
    key, the key field turns it into a number with [int]: ASCII white space
    around it is dropped, one sign is allowed, the digits may have leading
    zeros and single underscores between them. *)
Definition is_space (c : ascii) : bool :=
  let n := nat_of_ascii c in
  ((9 <=? n)%nat && (n <=? 13)%nat) || (n =? 32)%nat.

Definition digit_of (c : ascii) : option Z :=
  let n := Z.of_nat (nat_of_ascii c) in
  if (48 <=? n) && (n <=? 57) then Some (n - 48) else None.

Fixpoint all_space (s : string) : bool :=
  match s with
  | EmptyString => true
  | String c rest => is_space c && all_space rest
  end.

Fixpoint int_digits (s : string) (after_digit : bool) (acc : Z) : option Z :=
  match s with
  | EmptyString => if after_digit then Some acc else None
  | String c rest =>
      match digit_of c with
      | Some d => int_digits rest true (10 * acc + d)
      | None =>
          if negb after_digit then None
          else if Ascii.eqb c "_" then int_digits rest false acc
          else if is_space c && all_space rest then Some acc
          else None
      end
  end.

(** [int(id)]; [None] is [ValueError]. *)
Fixpoint int_of_post (id : string) : option Z :=
  match id with
  | EmptyString => None
  | String c rest =>
      if is_space c then int_of_post rest
      else if Ascii.eqb c "+" then int_digits rest false 0
      else if Ascii.eqb c "-" then Z.opp <$> int_digits rest false 0
      else int_digits id false 0
  end.

(** The key a posted id names, if it is a number that can be a key. *)
Definition pk_of_post (id : string) : option positive :=
  match int_of_post id with
  | Some (Zpos pk) => Some pk
  | _ => None
  end.

(** [instance.account] when the instance was built with [account_id=id], [id]
    a posted string: the row under [int(id)] is read when the attribute is
    first used. *)
Definition related_posted {A} (table : Store -> gmap positive A) (id : string)
    : M (positive * A) :=
  match int_of_post id with
  | None => raise ValueError
  | Some (Zpos pk) => related table pk None
  | Some _ => raise DoesNotExist
  end.

(** ** Floats and decimals *)

(** The integer nearest to [x], the even one of two equally near. *)
Definition round_half_even (x : Q) : Z :=
  let n := Qnum x in
  let d := Zpos (Qden x) in
  let q := n / d in
  match 2 * (n mod d) ?= d with
  | Lt => q
  | Gt => q + 1
  | Eq => if Z.even q then q else q + 1
  end.

(** [x] rounded to a multiple of [unit]. *)
Definition round_to (unit x : Q) : Q :=
  (inject_Z (round_half_even (x / unit)) * unit)%Q.

(** For [x > 0]: the [e] with [2^e <= x < 2^(e+1)], and the [k] with
    [10^(k-1) <= x < 10^k]. *)
Definition binade (x : Q) : Z :=
  let l := Z.log2 (Qnum x) - Z.log2 (Zpos (Qden x)) in
  if Qle_bool (2 ^ l) x then l else l - 1.

Definition decade (x : Q) : Z :=
  let k := binade x * 30103 / 100000 in
  if Qle_bool (10 ^ (k + 1)) x then k + 2
  else if Qle_bool (10 ^ k) x then k + 1
  else k.

(** A rounding of positive numbers, extended to zero and by symmetry. *)
Definition signed (f : Q -> Q) (x : Q) : Q :=
  match Qnum x with
  | 0 => 0%Q
  | Zpos _ => f x
  | Zneg _ => (- f (- x))%Q
  end.

(** The double nearest to [x]: 53 significant bits, ties to even.  The
    exponent range is left out, amounts are far from its ends. *)
Definition binary64 : Q -> Q :=
  signed (fun x => round_to (2 ^ (binade x - 52)) x).

(** [x] rounded to [n] significant decimal digits. *)
Definition round_digits (n : Z) : Q -> Q :=
  signed (fun x => round_to (10 ^ (decade x - n)) x).

(** [Decimal(str(f))] for a float [f]: [str] gives the shortest decimal, of
    at most 17 digits, that reads back as [f]. *)
Fixpoint shortest (fuel : nat) (n : Z) (f : Q) : Q :=
  let d := round_digits n f in
  match fuel with
  | O => d
  | S fuel => if Qeq_bool (binary64 d) f then d else shortest fuel (n + 1) f
  end.

Definition Decimal_str (f : Q) : Q := shortest 16 1 f.

(** The [Decimal] of an amount held in hundredths, [float] of it, and the
    float subtraction. *)
Definition Decimal_of (amount : Z) : Q := (inject_Z amount / 100)%Q.

Definition float_of (amount : Z) : Q := binary64 (Decimal_of amount).

Definition float_sub (x y : Q) : Q := binary64 (x - y).

Definition Qltb (x y : Q) : bool :=
  match Qcompare x y with
  | Lt => true
  | _ => false
  end.

(** What a [DecimalField(decimal_places=2)] writes for a [Decimal]: the
    hundredths nearest to it. *)
Definition quantize (d : Q) : Z := round_half_even (d * 100).

(** What a [DecimalField(max_digits, decimal_places=2)] writes for a float:
    the float is read with [max_digits] significant digits, then rounded to
    hundredths. *)
Definition DecimalField_of_float (max_digits : Z) (f : Q) : Z :=
  quantize (round_digits max_digits f).

(** ** apps/accounts/models.py *)

Definition with_balance (a : Account) (b : Z) : Account :=
  mkAccount (acc_user a) (acc_name a) b (acc_is_active a).

(** [Account.save()] as called by [deposit] and [withdraw]. *)
Definition Account_save (self : positive * Account) : M unit :=
  modify (set_accounts (<[self.1 := self.2]>) (cons (self.1, balance self.2))).

(** [Account.deposit]; the result is the instance after the call. *)
Definition deposit (self : positive * Account) (amount : Z) : M (positive * Account) :=
  let self' := (self.1, with_balance self.2 (balance self.2 + amount)) in
  _ ← Account_save self';
  mret self'.

(** [Account.withdraw]. *)
Definition withdraw (self : positive * Account) (amount : Z) : M (positive * Account) :=
  let de_balance := balance self.2 in
  let de_amount := amount in
  if de_balance <? de_amount then raise InsufficientFunds
  else
    let de_balance := de_balance - de_amount in
    let self' := (self.1, with_balance self.2 de_balance) in
    _ ← Account_save self';
    mret self'.

(** [Account.save()] of an instance whose balance is a [Decimal] of any
    number of places. *)
Definition Account_save_Decimal (self : positive * Account) (de_balance : Q) : M unit :=
  Account_save (self.1, with_balance self.2 (quantize de_balance)).

(** [Account.deposit] and [Account.withdraw] called with a float. *)
Definition deposit_float (self : positive * Account) (amount : Q) : M unit :=
  Account_save_Decimal self (Decimal_of (balance self.2) + Decimal_str amount)%Q.

Definition withdraw_float (self : positive * Account) (amount : Q) : M unit :=
  let de_balance := Decimal_of (balance self.2) in
  let de_amount := Decimal_str amount in
  if Qltb de_balance de_amount then raise InsufficientFunds
  else
    let de_balance := (de_balance - de_amount)%Q in
    Account_save_Decimal self de_balance.

(** [Transfer.save]. *)
Definition Transfer_save (pk : option positive) (self : Transfer)
    (from_account to_account : option Account) : M positive :=
  atomic (
    _ ← match pk with
        | None =>
            src ← related accounts (tr_from_account self) from_account;
            _ ← withdraw src (tr_amount self);
            dst ← related accounts (tr_to_account self) to_account;
            _ ← deposit dst (tr_amount self);
            mret tt
        | Some _ => mret tt
        end;
    Model_save transfers set_transfers pk self).

(** [Transfer.save] on the new instance that [Transfer.objects.create] builds
    from [from_account_id=from_id] and [to_account_id=to_id], two posted
    strings: [self.from_account] and [self.to_account] read the rows the ids
    name, each when it is used, and the row is written with their keys. *)
Definition Transfer_save_posted (user : positive) (from_id to_id : string) (amount : Z)
    : M positive :=
  atomic (
    src ← related_posted accounts from_id;
    _ ← withdraw src amount;
    dst ← related_posted accounts to_id;
    _ ← deposit dst amount;
    Model_save transfers set_transfers None (mkTransfer user src.1 dst.1 amount)).

Definition with_remaining (d : Debt) (r : Z) : Debt :=
  mkDebt (debt_user d) (debt_contact d) (initial_amount d) r (debt_type d)
         (debt_account d) (is_settled d).

Definition with_settled (d : Debt) (b : bool) : Debt :=
  mkDebt (debt_user d) (debt_contact d) (initial_amount d) (remaining_amount d)
         (debt_type d) (debt_account d) b.

(** [Debt.save]; the result is the key and the instance after the call. *)
Definition Debt_save (pk : option positive) (self : Debt) (account : option Account)
    : M (positive * Debt) :=
  atomic (
    self ← match pk with
           | None =>
               let self := with_remaining self (initial_amount self) in
               acc ← related accounts (debt_account self) account;
               _ ← (if String.eqb (debt_type self) "payable"
                    then deposit acc (initial_amount self)
                    else withdraw acc (initial_amount self));
               mret self
           | Some _ => mret self
           end;
    id ← Model_save debts set_debts pk self;
    mret (id, self)).

(** [DebtPayment.save]; [debt] is the instance on [self.debt]. *)
Definition DebtPayment_save (pk : option positive) (self : DebtPayment)
    (debt : Debt) (account : option Account) : M positive :=
  atomic (
    if amount_paid self >? remaining_amount debt then raise OverPayment
    else
      let debt := with_remaining debt (remaining_amount debt - amount_paid self) in
      let debt := if remaining_amount debt =? 0 then with_settled debt true else debt in
      _ ← Debt_save (Some (dp_debt self)) debt None;
      acc ← related accounts (dp_account self) account;
      _ ← (if String.eqb (debt_type debt) "payable"
           then withdraw acc (amount_paid self)
           else deposit acc (amount_paid self));
      Model_save payments set_payments pk self).

(** ** apps/expenses/models.py and apps/income/models.py *)

(** [Expense.save]. *)
Definition Expense_save (pk : option positive) (self : Expense) (account : option Account)
    : M positive :=
  atomic (
    _ ← match pk with
        | None =>
            acc ← related accounts (exp_account self) account;
            _ ← withdraw acc (exp_amount self);
            mret tt
        | Some _ => mret tt
        end;
    Model_save expenses set_expenses pk self).

(** [Income.save]: no [atomic] block of its own. *)
Definition Income_save (pk : option positive) (self : Income) (account : option Account)
    : M positive :=
  _ ← match pk with
      | None =>
          acc ← related accounts (inc_account self) account;
          _ ← deposit acc (inc_amount self);
          mret tt
      | Some _ => mret tt
      end;
  Model_save incomes set_incomes pk self.

(** ** apps/accounts/views.py *)

(** [accounts_dashboard], POST with [action == "transfer_money"]. *)
Definition accounts_dashboard_transfer_money (user from_account to_account : positive)
    (amount : Z) : M unit :=
  atomic (
    from_acc ← get_object_or_404 accounts acc_user from_account user;
    to_acc ← get_object_or_404 accounts acc_user to_account user;
    if decide (from_acc.1 = to_acc.1) then raise SameAccount
    else
      _ ← Transfer_save None (mkTransfer user from_acc.1 to_acc.1 amount)
            (Some from_acc.2) (Some to_acc.2);
      mret tt).

(** [process_transfer], POST.  [from_id] and [to_id] are the posted strings:
    the view compares them as they come and passes them on as
    [from_account_id] and [to_account_id]. *)
Definition process_transfer (user : positive) (from_id to_id : string) (amount : Z) : M unit :=
  if decide (from_id = to_id) then raise SameAccount
  else
    _ ← Transfer_save_posted user from_id to_id amount;
    mret tt.

(** [debt_dashboard], POST with [action == "add_debt"].  [remaining_amount]
    is not passed to [create]; [Debt.save] sets it before anything reads it.
    No code reads the contact: [Debt.contact] is a [ForeignKey], and the row
    written with [contact_id] is checked against the contacts when the
    [atomic] block of the view commits. *)
Definition debt_dashboard_add_debt (user contact account : positive) (amount : Z)
    (debt_type : string) : M unit :=
  atomic (
    _ ← Debt_save None (mkDebt user contact amount 0 debt_type account false) None;
    check_foreign_key contacts contact).

(** [debt_dashboard], POST with [action == "make_payment"]. *)
Definition debt_dashboard_make_payment (user debt_id account : positive) (amount : Z)
    : M unit :=
  atomic (
    debt_obj ← get_object_or_404 debts debt_user debt_id user;
    _ ← DebtPayment_save None (mkDebtPayment debt_obj.1 account amount) debt_obj.2 None;
    mret tt).

(** ** apps/expenses/views.py *)

(** [add_expense], POST. *)
Definition add_expense (user account category : positive) (title : string) (amount : Z)
    : M unit :=
  atomic (
    account ← get_object_or_404 accounts acc_user account user;
    category ← get_object_or_404 categories cat_user category user;
    _ ← Expense_save None
          (mkExpense user account.1 (Some category.1) title amount true)
          (Some account.2);
    mret tt).

(** [edit_expense], POST; [amount] is the posted amount, in hundredths.  Both
    amounts go through [float], the account method is called with their
    float difference, and the float is what is assigned to [expense.amount],
    a [DecimalField(max_digits=10)]. *)
Definition edit_expense (user pk : positive) (title : string) (amount : Z)
    (category : positive) : M unit :=
  expense ← get_object_or_404 expenses exp_user pk user;
  atomic (
    let new_amount := float_of amount in
    let old_amount := float_of (exp_amount expense.2) in
    _ ← (if Qltb old_amount new_amount then
           acc ← related accounts (exp_account expense.2) None;
           withdraw_float acc (float_sub new_amount old_amount)
         else if Qltb new_amount old_amount then
           acc ← related accounts (exp_account expense.2) None;
           deposit_float acc (float_sub old_amount new_amount)
         else mret tt);
    category ← get_object_or_404 categories cat_user category user;
    _ ← Expense_save (Some expense.1)
          (mkExpense (exp_user expense.2) (exp_account expense.2) (Some category.1)
                     title (DecimalField_of_float 10 new_amount) (exp_is_active expense.2))
          None;
    mret tt).

(** [delete_expense], POST. *)
Definition delete_expense (user pk : positive) : M unit :=
  expense ← get_object_or_404 expenses exp_user pk user;
  atomic (
    acc ← related accounts (exp_account expense.2) None;
    _ ← deposit acc (exp_amount expense.2);
    _ ← Expense_save (Some expense.1)
          (mkExpense (exp_user expense.2) (exp_account expense.2) (exp_category expense.2)
                     (exp_title expense.2) (exp_amount expense.2) false)
          None;
    mret tt).

(** ** apps/income/views.py *)

(** [income_list_view], POST; of the required fields the source and the
    amount are kept. *)
Definition income_list_view (user account category : positive) (source : string)
    (amount : Z) : M unit :=
  atomic (
    if negb (String.eqb source "") && (amount >? 0) then
      category_obj ← get_object_or_404 categories cat_user category user;
      account_obj ← get_object_or_404 accounts acc_user account user;
      _ ← Income_save None
            (mkIncome user account_obj.1 (Some category_obj.1) source amount true)
            (Some account_obj.2);
      mret tt
    else raise InvalidForm).

(** ** Stores that the operations produce, and a sample store *)

(** The store after [Account.save] of [acc] under key [id]. *)
Definition saved (id : positive) (acc : Account) (s : Store) : Store :=
  set_accounts (<[id := acc]>) (cons (id, balance acc)) s.

(** The store after a transfer of [amount] from the row [src] of
    [from_account] to the row [dst] of [to_account]. *)
Definition transferred (user from_account to_account : positive) (amount : Z)
    (src dst : Account) (s : Store) : Store :=
  set_transfers (<[new_pk (transfers s) := mkTransfer user from_account to_account amount]>)
    (saved to_account (with_balance dst (balance dst + amount))
       (saved from_account (with_balance src (balance src - amount)) s)).

(** The debt instance after [DebtPayment.save] has applied [amount]. *)
Definition apply_payment (d : Debt) (amount : Z) : Debt :=
  let d := with_remaining d (remaining_amount d - amount) in
  if remaining_amount d =? 0 then with_settled d true else d.

(** The store after a payment of [amount] on the debt row [d], posted to the
    account row [a]. *)
Definition payment_recorded (debt_id account : positive) (amount : Z)
    (d : Debt) (a : Account) (s : Store) : Store :=
  set_payments (<[new_pk (payments s) := mkDebtPayment debt_id account amount]>)
    (saved account
       (with_balance a (if String.eqb (debt_type d) "payable"
                        then balance a - amount else balance a + amount))
       (set_debts (<[debt_id := apply_payment d amount]>) s)).

(** Two accounts of user 1 (500.00 and 0.00), one of user 2 (10.00), a
    category and a contact of user 1. *)
Definition sample_store : Store :=
  mkStore
    {[ 1%positive := mkAccount 1 "cash" 50000 true;
       2%positive := mkAccount 1 "bank" 0 true;
       3%positive := mkAccount 2 "wallet" 1000 true ]}
    {[ 1%positive := mkCategory 1 "food" ]}
    {[ 1%positive := mkContact 1 "ram" ]}
    ∅ ∅ ∅ ∅ ∅ [].

(** [sample_store] after user 1 borrowed 1000.00 into "bank" (debt 1,
    payable) and paid 400.00 of it back from "bank": 600.00 remain. *)
Definition partly_paid_store : Store :=
  (debt_dashboard_make_payment 1 1 2 40000
     (debt_dashboard_add_debt 1 1 2 100000 "payable" sample_store).1).1.

(** The same debt paid back in full: nothing remains and it is settled. *)
Definition settled_store : Store :=
  (debt_dashboard_make_payment 1 1 2 60000 partly_paid_store).1.

(** [sample_store] after user 1 lent 100.00 out of "cash" (debt 1,
    receivable). *)
Definition lent_store : Store :=
  (debt_dashboard_add_debt 1 1 1 10000 "receivable" sample_store).1.

(** What the debt dashboard shows of a debt: remaining amount and settled
    flag. *)
Definition debt_status (s : Store) (debt_id : positive) : option (Z * bool) :=
  (fun d => (remaining_amount d, is_settled d)) <$> debts s !! debt_id.

Definition balance_of (s : Store) (account : positive) : option Z :=
  balance <$> accounts s !! account.

(** One balance mutation between two stores: the row of [account] is
    rewritten with its balance changed by [delta], and that is the single
    account save added to the trace. *)
Definition one_mutation (s s' : Store) (account : positive) (delta : Z) : Prop :=
  exists a,
    accounts s !! account = Some a /\
    accounts s' = <[account := with_balance a (balance a + delta)]> (accounts s) /\
    account_saves s' = (account, balance a + delta) :: account_saves s.


(** The row [edit_expense] writes over the row [e]. *)
Definition edited (e : Expense) (category : positive) (title : string) (amount : Z) : Expense :=
  mkExpense (exp_user e) (exp_account e) (Some category) title amount (exp_is_active e).

(** The decimal, counted in hundredths, that [Account.withdraw] or
    [Account.deposit] is called with by [edit_expense] when the amount goes
    from [lo] up to [hi], or from [hi] down to [lo]. *)
Definition edit_decimal (hi lo : Z) : Q :=
  (Decimal_str (float_sub (float_of hi) (float_of lo)) * 100)%Q.

(** [q] is less than half a unit away from [z]. *)
Definition near (q : Q) (z : Z) : bool :=
  Qltb (inject_Z z - (1 # 2)) q && Qltb q (inject_Z z + (1 # 2)).

(** What an edit from [old] to [new] needs of the floats, decided by
    computation: the two floats compare as the amounts do, the decimal of
    their difference is less than half a hundredth away from the difference
    of the amounts, and the float of the new amount is stored as the new
    amount. *)
Definition float_keeps (new old : Z) : bool :=
  match new ?= old with
  | Gt => Qltb (float_of old) (float_of new) && near (edit_decimal new old) (new - old)
  | Lt => negb (Qltb (float_of old) (float_of new)) && Qltb (float_of new) (float_of old)
          && near (edit_decimal old new) (old - new)
  | Eq => true
  end
  && (DecimalField_of_float 10 (float_of new) =? new).

(** The row [delete_expense] writes over the row [e]. *)
Definition deactivated (e : Expense) : Expense :=
  mkExpense (exp_user e) (exp_account e) (exp_category e) (exp_title e) (exp_amount e) false.

(** [sample_store] after an income of 100.00 into "cash" and an expense of
    100.00 out of it: expense 1 has amount 100.00 and "cash" holds 500.00. *)
Definition spent_store : Store :=
  (add_expense 1 1 1 "rice" 10000
     (income_list_view 1 1 1 "gift" 10000 sample_store).1).1.


(** The requests that take money out of an account or post a payment: a
    bare [Account.withdraw] on the stored row, [add_expense], and the
    [make_payment] action. *)
Inductive ledger_op :=
| OpWithdraw (account : positive) (amount : Z)
| OpAddExpense (user account category : positive) (title : string) (amount : Z)
| OpMakePayment (user debt_id account : positive) (amount : Z).

Definition run_op (op : ledger_op) : M unit :=
  match op with
  | OpWithdraw account amount =>
      acc ← related accounts account None;
      _ ← withdraw acc amount;
      mret tt
  | OpAddExpense user account category title amount =>
      add_expense user account category title amount
  | OpMakePayment user debt_id account amount =>
      debt_dashboard_make_payment user debt_id account amount
  end.

(** The store after a list of requests, each one succeeding or failing. *)
Fixpoint run_ops (ops : list ledger_op) (s : Store) : Store :=
  match ops with
  | [] => s
  | op :: ops => run_ops ops (run_op op s).1
  end.

(** Payments carry a non-negative amount. *)
Definition payment_nonneg (op : ledger_op) : Prop :=
  match op with
  | OpMakePayment _ _ _ amount => 0 <= amount
  | _ => True
  end.

Definition nonneg_balances (s : Store) : Prop :=
  map_Forall (fun _ a => 0 <= balance a) (accounts s).

(** ** Every request that moves money *)

(** The POST requests embedded above, with their parameters. *)
Inductive request :=
| TransferMoney (user from_account to_account : positive) (amount : Z)
| ProcessTransfer (user : positive) (from_id to_id : string) (amount : Z)
| AddDebt (user contact account : positive) (amount : Z) (debt_type : string)
| MakePayment (user debt_id account : positive) (amount : Z)
| AddExpense (user account category : positive) (title : string) (amount : Z)
| EditExpense (user pk : positive) (title : string) (amount : Z) (category : positive)
| DeleteExpense (user pk : positive)
| AddIncome (user account category : positive) (source : string) (amount : Z).

Definition handle (r : request) : M unit :=
  match r with
  | TransferMoney user from_account to_account amount =>
      accounts_dashboard_transfer_money user from_account to_account amount
  | ProcessTransfer user from_id to_id amount => process_transfer user from_id to_id amount
  | AddDebt user contact account amount debt_type =>
      debt_dashboard_add_debt user contact account amount debt_type
  | MakePayment user debt_id account amount =>
      debt_dashboard_make_payment user debt_id account amount
  | AddExpense user account category title amount =>
      add_expense user account category title amount
  | EditExpense user pk title amount category => edit_expense user pk title amount category
  | DeleteExpense user pk => delete_expense user pk
  | AddIncome user account category source amount =>
      income_list_view user account category source amount
  end.

(** The store after a list of requests, each one succeeding or failing. *)
Fixpoint handle_all (rs : list request) (s : Store) : Store :=
  match rs with
  | [] => s
  | r :: rs => handle_all rs (handle r s).1
  end.

(** What the client is answered.  [Done]: the success message.
    [ErrorMessage]: the view reports the error with [messages.error] and
    answers with its page or a redirect.  [NotFound]: an [Http404] that
    leaves the view, a 404 page.  [ServerError]: any other exception that
    leaves the view. *)
Inductive response :=
| Done
| ErrorMessage (e : error)
| NotFound
| ServerError (e : error).

(** The [try ... except] of each view: [accounts_dashboard], [debt_dashboard],
    [add_expense] and [income_list_view] catch every [Exception], and with it
    the [Http404] of their lookups; [edit_expense] catches [ValidationError]
    only and looks the expense up outside the [try]; [process_transfer] and
    [delete_expense] catch nothing. *)
Definition respond (r : request) (result : error + unit) : response :=
  match result with
  | inr _ => Done
  | inl e =>
      match r with
      | TransferMoney _ _ _ _ | AddDebt _ _ _ _ _ | MakePayment _ _ _ _
      | AddExpense _ _ _ _ _ | AddIncome _ _ _ _ _ => ErrorMessage e
      | ProcessTransfer _ _ _ _ =>
          match e with
          | SameAccount => ErrorMessage e
          | _ => ServerError e
          end
      | EditExpense _ _ _ _ _ =>
          match e with
          | Http404 => NotFound
          | InsufficientFunds => ErrorMessage e
          | _ => ServerError e
          end
      | DeleteExpense _ _ =>
          match e with
          | Http404 => NotFound
          | _ => ServerError e
          end
      end
  end.

(** The store after a debt of [amount] was created on the account row [a],
    whose balance becomes [b]. *)
Definition debt_created (user contact account : positive) (amount : Z) (debt_type : string)
    (a : Account) (b : Z) (s : Store) : Store :=
  set_debts
    (<[new_pk (debts s) := mkDebt user contact amount amount debt_type account false]>)
    (saved account (with_balance a b) s).

(** Two account rows that differ at most in the balance. *)
Definition same_holder (a a' : Account) : Prop :=
  acc_user a' = acc_user a /\ acc_name a' = acc_name a /\
  acc_is_active a' = acc_is_active a.

(** The accounts of [s'] are those of [s], balances apart. *)
Definition same_accounts (s s' : Store) : Prop :=
  forall k, match accounts s !! k, accounts s' !! k with
            | Some a, Some a' => same_holder a a'
            | None, None => True
            | _, _ => False
            end.

(** Requests whose payment, if they are one, has a non-negative amount. *)
Definition request_payment_nonneg (r : request) : Prop :=
  match r with
  | MakePayment _ _ _ amount => 0 <= amount
  | _ => True
  end.

(** The flag of a debt is consistent: settled only with nothing remaining. *)
Definition settled_at_zero (d : Debt) : Prop :=
  is_settled d = true -> remaining_amount d = 0.

(** [d'] is a later state of the debt [d]: same owner, direction and initial
    amount, no more remaining than before and not below zero if it was not,
    and still settled if it was. *)
Definition debt_shrinks (d d' : Debt) : Prop :=
  debt_user d' = debt_user d /\ debt_type d' = debt_type d /\
  initial_amount d' = initial_amount d /\
  remaining_amount d' <= remaining_amount d /\
  (0 <= remaining_amount d -> 0 <= remaining_amount d') /\
  (is_settled d = true -> is_settled d' = true).

(** Requests whose amount, if they carry one, is not negative. *)
Definition request_amount_nonneg (r : request) : Prop :=
  match r with
  | TransferMoney _ _ _ amount | ProcessTransfer _ _ _ amount | AddDebt _ _ _ amount _
  | MakePayment _ _ _ amount | AddExpense _ _ _ _ amount | EditExpense _ _ _ amount _
  | AddIncome _ _ _ _ amount => 0 <= amount
  | DeleteExpense _ _ => True
  end.

(** No account is overdrawn and no expense has a negative amount. *)
Definition ledger_nonneg (s : Store) : Prop :=
  nonneg_balances s /\ map_Forall (fun _ e => 0 <= exp_amount e) (expenses s).

(** ** Figures of the dashboards *)

(** [queryset.filter(...).aggregate(Sum(field))[...] or Decimal(0)]: the sum
    of [field] over the rows that pass the filter, 0 when there are none. *)
Definition sum_where {A} (keep : A -> bool) (field : A -> Z) (table : gmap positive A) : Z :=
  map_fold (fun _ row total => if keep row then field row + total else total) 0 table.

(** [accounts_dashboard]: [total_balance], over the active accounts of the
    user. *)
Definition total_balance (user : positive) (s : Store) : Z :=
  sum_where (fun a => bool_decide (acc_user a = user) && acc_is_active a)
            balance (accounts s).

(** [accounts_dashboard], [expense_list] and [debt_dashboard]: what is still
    owed to the user and by the user, over the debts not flagged settled. *)
Definition receivables (user : positive) (s : Store) : Z :=
  sum_where (fun d => bool_decide (debt_user d = user)
                      && String.eqb (debt_type d) "receivable" && negb (is_settled d))
            remaining_amount (debts s).

Definition payables (user : positive) (s : Store) : Z :=
  sum_where (fun d => bool_decide (debt_user d = user)
                      && String.eqb (debt_type d) "payable" && negb (is_settled d))
            remaining_amount (debts s).

(** [accounts_dashboard]: [net_worth]. *)
Definition net_worth (user : positive) (s : Store) : Z :=
  (total_balance user s + receivables user s) - payables user s.

(** [expense_list]: [total_cash], over every account of the user, active or
    not, and the net worth it shows. *)
Definition total_cash (user : positive) (s : Store) : Z :=
  sum_where (fun a => bool_decide (acc_user a = user)) balance (accounts s).

Definition expense_list_net_worth (user : positive) (s : Store) : Z :=
  (total_cash user s + receivables user s) - payables user s.

(** The part of a row in a sum. *)
Definition share {A} (keep : A -> bool) (field : A -> Z) (row : A) : Z :=
  if keep row then field row else 0.

(** ** Accounts and categories: creation, deactivation, deletion *)

(** What the database raises when a row breaks a [unique_together]. *)
Inductive integrity_error := IntegrityError.

(** [accounts_dashboard], POST with [action == "create_account"]:
    [Account.objects.create] under [unique_together = ("user", "name")].  The
    view reports the [IntegrityError] as a message. *)
Definition accounts_dashboard_create_account (user : positive) (name : string) (balance : Z)
    (s : Store) : Store * (integrity_error + positive) :=
  if bool_decide
       (map_Exists (fun _ a => acc_user a = user /\ acc_name a = name) (accounts s))
  then (s, inl IntegrityError)
  else
    let pk := new_pk (accounts s) in
    (set_accounts (<[pk := mkAccount user name balance true]>) id s, inr pk).

(** [account_delete], POST: the account is kept and flagged inactive.  The
    view then calls [redirect("account_list")], a URL name that
    [core/urls.py] does not define, so it ends with [NoReverseMatch]; it has
    no [atomic] block and the save stays.  [core/urls.py] routes no URL to
    this view. *)
Definition account_delete (user pk : positive) : M unit :=
  account ← get_object_or_404 accounts acc_user pk user;
  _ ← modify (set_accounts
                (<[account.1 := mkAccount (acc_user account.2) (acc_name account.2)
                                          (balance account.2) false]>) id);
  raise NoReverseMatch.

Definition set_categories (f : gmap positive Category -> gmap positive Category) (s : Store)
    : Store :=
  mkStore (accounts s) (f (categories s)) (contacts s) (expenses s) (incomes s)
          (transfers s) (debts s) (payments s) (account_saves s).

(** [delete_category]: [true] when the category was deleted, [false] when the
    view answered that it is linked to existing records.  The expenses and
    incomes are the tables the view asks; no code writes the [Transaction]
    table, which the store leaves out. *)
Definition delete_category (user pk : positive) : M bool :=
  category ← get_object_or_404 categories cat_user pk user;
  s ← get_store;
  let has_expenses :=
    bool_decide (map_Exists (fun _ e => exp_category e = Some category.1) (expenses s)) in
  let has_income :=
    bool_decide (map_Exists (fun _ i => inc_category i = Some category.1) (incomes s)) in
  if has_expenses || has_income then mret false
  else
    _ ← modify (set_categories (delete category.1));
    mret true.

(** No two accounts of one user share a name. *)
Definition names_unique (s : Store) : Prop :=
  forall k1 k2 a1 a2,
    accounts s !! k1 = Some a1 -> accounts s !! k2 = Some a2 ->
    acc_user a1 = acc_user a2 -> acc_name a1 = acc_name a2 -> k1 = k2.

(** Every category an expense or an income names is in the table. *)
Definition category_refs_ok (s : Store) : Prop :=
  (forall k e c, expenses s !! k = Some e -> exp_category e = Some c ->
                 is_Some (categories s !! c)) /\
  (forall k i c, incomes s !! k = Some i -> inc_category i = Some c ->
                 is_Some (categories s !! c)).

(** [debt_dashboard]: the debts listed under [?status=...]. *)
Definition debt_listed (status : string) (d : Debt) : bool :=
  if String.eqb status "active" then negb (is_settled d)
  else if String.eqb status "settled" then is_settled d
  else if String.eqb status "partial" then
    negb (is_settled d) && negb (remaining_amount d =? initial_amount d)
  else true.

(** * Properties *)

(** ** The monad and the account store *)

Ltac run_monad :=
  unfold mbind, mret, M_bind, M_ret, raise, get_store, modify, atomic in *;
  simpl in *.

Lemma atomic_failure_restores {A} (body : M A) (s s' : Store) (e : error) :
  atomic body s = (s', inl e) -> s' = s.
Proof.
  unfold atomic. destruct (body s) as [s1 [e1 | x]]; intros H; inversion H; reflexivity.
Qed.

Lemma atomic_success {A} (body : M A) (s s' : Store) (x : A) :
  body s = (s', inr x) -> atomic body s = (s', inr x).
Proof. unfold atomic. intros ->. reflexivity. Qed.

Lemma atomic_failure {A} (body : M A) (s s' : Store) (e : error) :
  body s = (s', inl e) -> atomic body s = (s, inl e).
Proof. unfold atomic. intros ->. reflexivity. Qed.


Lemma withdraw_enough (self : positive * Account) (amount : Z) (s : Store) :
  amount <= balance self.2 ->
  withdraw self amount s =
    (saved self.1 (with_balance self.2 (balance self.2 - amount)) s,
     inr (self.1, with_balance self.2 (balance self.2 - amount))).
Proof.
  intros H. unfold withdraw.
  destruct (Z.ltb_spec (balance self.2) amount); [lia | reflexivity].
Qed.

Lemma withdraw_short (self : positive * Account) (amount : Z) (s : Store) :
  balance self.2 < amount ->
  withdraw self amount s = (s, inl InsufficientFunds).
Proof.
  intros H. unfold withdraw.
  destruct (Z.ltb_spec (balance self.2) amount); [reflexivity | lia].
Qed.

Lemma withdraw_cases (self : positive * Account) (amount : Z) (s : Store) :
  (balance self.2 < amount /\ withdraw self amount s = (s, inl InsufficientFunds)) \/
  (amount <= balance self.2 /\
   withdraw self amount s =
     (saved self.1 (with_balance self.2 (balance self.2 - amount)) s,
      inr (self.1, with_balance self.2 (balance self.2 - amount)))).
Proof.
  destruct (Z.lt_ge_cases (balance self.2) amount) as [H | H].
  - left. split; [exact H | exact (withdraw_short self amount s H)].
  - right. split; [exact H | exact (withdraw_enough self amount s H)].
Qed.

#[local] Arguments related : simpl never.
#[local] Arguments withdraw : simpl never.
#[local] Arguments deposit : simpl never.
#[local] Arguments get_object_or_404 : simpl never.

Lemma related_cached {A} (table : Store -> gmap positive A) (id : positive) (obj : A) (s : Store) :
  related table id (Some obj) s = (s, inr (id, obj)).
Proof. reflexivity. Qed.

Lemma related_read {A} (table : Store -> gmap positive A) (id : positive) (obj : A) (s : Store) :
  table s !! id = Some obj -> related table id None s = (s, inr (id, obj)).
Proof. intros H. unfold related. run_monad. rewrite H. reflexivity. Qed.

Lemma related_missing {A} (table : Store -> gmap positive A) (id : positive) (s : Store) :
  table s !! id = None -> related table id None s = (s, inl DoesNotExist).
Proof. intros H. unfold related. run_monad. rewrite H. reflexivity. Qed.

Lemma get_object_found {A} (table : Store -> gmap positive A) (owner : A -> positive)
    (id user : positive) (obj : A) (s : Store) :
  table s !! id = Some obj -> owner obj = user ->
  get_object_or_404 table owner id user s = (s, inr (id, obj)).
Proof.
  intros H Ho. unfold get_object_or_404. run_monad. rewrite H.
  destruct (decide (owner obj = user)); [reflexivity | contradiction].
Qed.

Lemma get_object_foreign {A} (table : Store -> gmap positive A) (owner : A -> positive)
    (id user : positive) (obj : A) (s : Store) :
  table s !! id = Some obj -> owner obj <> user ->
  get_object_or_404 table owner id user s = (s, inl Http404).
Proof.
  intros H Ho. unfold get_object_or_404. run_monad. rewrite H.
  destruct (decide (owner obj = user)); [contradiction | reflexivity].
Qed.

Lemma get_object_cases {A} (table : Store -> gmap positive A) (owner : A -> positive)
    (id user : positive) (s : Store) :
  get_object_or_404 table owner id user s = (s, inl Http404) \/
  exists obj, table s !! id = Some obj /\ owner obj = user /\
              get_object_or_404 table owner id user s = (s, inr (id, obj)).
Proof.
  unfold get_object_or_404. run_monad.
  destruct (table s !! id) as [obj |]; [| left; reflexivity].
  destruct (decide (owner obj = user)); [right; eauto | left; reflexivity].
Qed.

(** ** Floats and decimals *)

(** The model on 0.10, 0.40 and 1.10: the doubles [float] gives, the float
    differences and their decimals.  0.40 - 0.10 is the double that prints
    as 0.30000000000000004, 1.10 - 1.00 the one that prints as
    0.10000000000000009, 150.00 - 100.00 is 50 exactly; the float of 0.40 is
    stored as 0.40. *)
Lemma float_examples :
  Qeq_bool (float_of 10) (3602879701896397 # 36028797018963968) = true /\
  Qeq_bool (float_of 40) (3602879701896397 # 9007199254740992) = true /\
  Qeq_bool (float_sub (float_of 40) (float_of 10)) (1351079888211149 # 4503599627370496)
    = true /\
  Qeq_bool (Decimal_str (float_sub (float_of 40) (float_of 10)))
           (30000000000000004 # 100000000000000000) = true /\
  Qeq_bool (Decimal_str (float_sub (float_of 110) (float_of 100)))
           (10000000000000009 # 100000000000000000) = true /\
  Qeq_bool (Decimal_str (float_sub (float_of 15000) (float_of 10000))) 50 = true /\
  Qeq_bool (Decimal_str (float_of 30)) (3 # 10) = true /\
  DecimalField_of_float 10 (float_of 40) = 40.
Proof. vm_compute. repeat split; reflexivity. Qed.

(** The model of [int] on posted ids. *)
Lemma int_of_post_examples :
  int_of_post "1" = Some 1 /\ int_of_post "01" = Some 1 /\ int_of_post " 1 " = Some 1 /\
  int_of_post "+1" = Some 1 /\ int_of_post "1_0" = Some 10 /\ int_of_post "-3" = Some (-3) /\
  int_of_post "1__0" = None /\ int_of_post "_1" = None /\ int_of_post "+ 1" = None /\
  int_of_post "1.0" = None /\ int_of_post "" = None /\
  pk_of_post "0" = None /\ pk_of_post "-3" = None /\ pk_of_post "007" = Some 7%positive.
Proof. vm_compute. repeat split; reflexivity. Qed.

Lemma Qltb_true (x y : Q) : Qltb x y = true <-> (x < y)%Q.
Proof.
  unfold Qltb. rewrite Qlt_alt. destruct (Qcompare x y); split; congruence.
Qed.

Lemma Qltb_false (x y : Q) : Qltb x y = false <-> (y <= x)%Q.
Proof.
  unfold Qltb. rewrite Qge_alt. destruct (Qcompare x y); split; congruence.
Qed.

Lemma round_half_even_nonneg (x : Q) : (0 <= x)%Q -> 0 <= round_half_even x.
Proof.
  destruct x as [n d]. unfold Qle, round_half_even. cbn [Qnum Qden]. intros H.
  assert (Hn : 0 <= n) by lia.
  assert (Hq : 0 <= n / Z.pos d) by (apply Z.div_pos; lia).
  destruct (2 * (n mod Z.pos d) ?= Z.pos d); [destruct (Z.even _) | |]; lia.
Qed.

Lemma round_half_even_near (x : Q) (z : Z) :
  (inject_Z z - (1 # 2) < x)%Q -> (x < inject_Z z + (1 # 2))%Q -> round_half_even x = z.
Proof.
  destruct x as [n d]. unfold Qlt, Qminus, Qplus, Qopp, inject_Z, round_half_even.
  cbn [Qnum Qden]. intros Hlo Hhi.
  pose proof (Z.div_mod n (Z.pos d) ltac:(lia)) as Hdm.
  pose proof (Z.mod_pos_bound n (Z.pos d) ltac:(lia)) as Hr.
  set (q := n / Z.pos d) in *. set (r := n mod Z.pos d) in *.
  assert (Hq : q = z \/ q = z - 1) by nia.
  destruct (Z.compare_spec (2 * r) (Z.pos d)) as [He | Hl | Hg]; nia.
Qed.

Lemma round_to_nonneg (unit x : Q) :
  (0 < unit)%Q -> (0 <= x)%Q -> (0 <= round_to unit x)%Q.
Proof.
  intros Hu Hx. unfold round_to. apply Qmult_le_0_compat; [| apply Qlt_le_weak; exact Hu].
  rewrite <- (Zle_Qle 0). apply round_half_even_nonneg.
  apply Qle_shift_div_l; [exact Hu |]. rewrite Qmult_0_l. exact Hx.
Qed.

Lemma signed_nonneg (f : Q -> Q) (x : Q) :
  (forall y, (0 <= y)%Q -> (0 <= f y)%Q) -> (0 <= x)%Q -> (0 <= signed f x)%Q.
Proof.
  intros Hf Hx. unfold signed. destruct x as [[| n | n] d]; cbn [Qnum].
  - apply Qle_refl.
  - apply Hf. exact Hx.
  - exfalso. revert Hx. unfold Qle. cbn. lia.
Qed.

Lemma binary64_nonneg (x : Q) : (0 <= x)%Q -> (0 <= binary64 x)%Q.
Proof.
  apply signed_nonneg. intros y Hy. apply round_to_nonneg; [| exact Hy].
  apply Qpower_0_lt. reflexivity.
Qed.

Lemma round_digits_nonneg (n : Z) (x : Q) : (0 <= x)%Q -> (0 <= round_digits n x)%Q.
Proof.
  apply signed_nonneg. intros y Hy. apply round_to_nonneg; [| exact Hy].
  apply Qpower_0_lt. reflexivity.
Qed.

Lemma Decimal_str_nonneg (f : Q) : (0 <= f)%Q -> (0 <= Decimal_str f)%Q.
Proof.
  intros Hf. unfold Decimal_str. generalize 1. generalize 16%nat.
  intros fuel. induction fuel as [| fuel IH]; intros n; cbn [shortest].
  - apply round_digits_nonneg. exact Hf.
  - destruct (Qeq_bool _ f); [apply round_digits_nonneg; exact Hf | apply IH].
Qed.

Lemma quantize_nonneg (d : Q) : (0 <= d)%Q -> 0 <= quantize d.
Proof. intros Hd. apply round_half_even_nonneg. lra. Qed.

Lemma Decimal_of_nonneg (amount : Z) : 0 <= amount -> (0 <= Decimal_of amount)%Q.
Proof.
  intros H. unfold Decimal_of. apply Qle_shift_div_l; [reflexivity |].
  rewrite Zle_Qle in H. change (inject_Z 0) with 0%Q in H. lra.
Qed.

Lemma DecimalField_of_float_nonneg (max_digits amount : Z) :
  0 <= amount -> 0 <= DecimalField_of_float max_digits (float_of amount).
Proof.
  intros H. apply quantize_nonneg, round_digits_nonneg, binary64_nonneg, Decimal_of_nonneg, H.
Qed.

Lemma float_sub_nonneg (x y : Q) : (y <= x)%Q -> (0 <= float_sub x y)%Q.
Proof. intros H. apply binary64_nonneg. lra. Qed.


Lemma quantize_add_near (b z : Z) (d : Q) :
  near (d * 100) z = true -> quantize (Decimal_of b + d) = b + z.
Proof.
  unfold near. intros H. apply andb_prop in H. destruct H as [Hlo Hhi].
  apply Qltb_true in Hlo, Hhi.
  assert (E : ((inject_Z b / 100 + d) * 100 == inject_Z b + d * 100)%Q) by field.
  apply round_half_even_near; unfold Decimal_of;
    rewrite inject_Z_plus, E; lra.
Qed.

Lemma Qltb_irrefl (x : Q) : Qltb x x = false.
Proof. apply Qltb_false. apply Qle_refl. Qed.

(** The funds check of [Account.withdraw] on a float, in hundredths. *)
Lemma covers_decimal (b : Z) (d : Q) :
  Qltb (Decimal_of b) d = false <-> (d * 100 <= inject_Z b)%Q.
Proof.
  rewrite Qltb_false. unfold Decimal_of.
  assert (E : (inject_Z b / 100 * 100 == inject_Z b)%Q) by field.
  split; intros H.
  - rewrite <- E. apply Qmult_le_compat_r; [exact H | discriminate].
  - apply Qle_shift_div_l; [reflexivity | exact H].
Qed.

Lemma deposit_float_eq (self : positive * Account) (amount : Q) (s : Store) :
  deposit_float self amount s =
    (saved self.1
       (with_balance self.2 (quantize (Decimal_of (balance self.2) + Decimal_str amount))) s,
     inr tt).
Proof. reflexivity. Qed.

Lemma withdraw_float_enough (self : positive * Account) (amount : Q) (s : Store) :
  Qltb (Decimal_of (balance self.2)) (Decimal_str amount) = false ->
  withdraw_float self amount s =
    (saved self.1
       (with_balance self.2 (quantize (Decimal_of (balance self.2) - Decimal_str amount))) s,
     inr tt).
Proof. intros H. unfold withdraw_float. rewrite H. reflexivity. Qed.

Lemma withdraw_float_short (self : positive * Account) (amount : Q) (s : Store) :
  Qltb (Decimal_of (balance self.2)) (Decimal_str amount) = true ->
  withdraw_float self amount s = (s, inl InsufficientFunds).
Proof. intros H. unfold withdraw_float. rewrite H. reflexivity. Qed.

(** When its decimal is the amount [z] itself, [Account.withdraw] on the
    float does what it does on the [Decimal] amount. *)
Lemma withdraw_float_exact (self : positive * Account) (amount : Q) (z : Z) (s : Store) :
  (Decimal_str amount == Decimal_of z)%Q ->
  withdraw_float self amount s = (_ ← withdraw self z; mret tt) s.
Proof.
  intros E. unfold mbind, M_bind.
  assert (E100 : (Decimal_str amount * 100 == inject_Z z)%Q).
  { rewrite E. unfold Decimal_of. field. }
  destruct (withdraw_cases self z s) as [[Hlt W] | [Hge W]]; rewrite W.
  - apply withdraw_float_short. apply Qltb_true.
    destruct (Qltb (Decimal_of (balance self.2)) (Decimal_str amount)) eqn:C;
      [apply Qltb_true; exact C |].
    apply covers_decimal in C. rewrite E100 in C. rewrite <- Zle_Qle in C. lia.
  - rewrite withdraw_float_enough.
    + unfold mret, M_ret. do 4 f_equal.
      apply round_half_even_near; rewrite E; unfold Decimal_of, Z.sub;
        rewrite inject_Z_plus, inject_Z_opp;
        [apply Qlt_minus_iff | apply Qlt_minus_iff]; field_simplify; reflexivity.
    + apply covers_decimal. rewrite E100. rewrite <- Zle_Qle. exact Hge.
Qed.

#[local] Arguments withdraw_float : simpl never.
#[local] Arguments deposit_float : simpl never.

(** ** Transfers *)

Lemma transfer_money_outcome (user from_account to_account : positive) (amount : Z) (s : Store) :
  let r := accounts_dashboard_transfer_money user from_account to_account amount s in
  r = (s, inl Http404) \/
  (from_account = to_account /\ r = (s, inl SameAccount)) \/
  exists src dst,
    accounts s !! from_account = Some src /\ acc_user src = user /\
    accounts s !! to_account = Some dst /\ acc_user dst = user /\
    from_account <> to_account /\
    ((balance src < amount /\ r = (s, inl InsufficientFunds)) \/
     (amount <= balance src /\
      r = (transferred user from_account to_account amount src dst s, inr tt))).
Proof.
  unfold accounts_dashboard_transfer_money, atomic, mbind, M_bind. simpl.
  destruct (get_object_cases accounts acc_user from_account user s)
    as [E | (src & Hs & Hsu & E)]; rewrite E; [left; reflexivity |].
  destruct (get_object_cases accounts acc_user to_account user s)
    as [E' | (dst & Hd & Hdu & E')]; rewrite E'; [left; reflexivity |].
  simpl. destruct (decide (from_account = to_account)) as [Heq | Hne].
  - right; left. split; [exact Heq | reflexivity].
  - right; right. exists src, dst. repeat (split; [assumption |]).
    unfold Transfer_save, atomic, mbind, M_bind. simpl.
    destruct (withdraw_cases (from_account, src) amount s) as [[Hlt W] | [Hge W]];
      rewrite W; simpl.
    + left. split; [exact Hlt | reflexivity].
    + right. split; [exact Hge | reflexivity].
Qed.

Lemma related_posted_cases {A} (table : Store -> gmap positive A) (id : string) (s : Store) :
  (exists err, related_posted table id s = (s, inl err)) \/
  exists pk obj,
    pk_of_post id = Some pk /\ table s !! pk = Some obj /\
    related_posted table id s = (s, inr (pk, obj)).
Proof.
  unfold related_posted, pk_of_post.
  destruct (int_of_post id) as [[| pk | pk] |].
  - left. eexists. reflexivity.
  - destruct (table s !! pk) as [obj |] eqn:H.
    + right. exists pk, obj. split; [reflexivity |]. split; [assumption || reflexivity |].
      exact (related_read table pk obj s H).
    + left. eexists. exact (related_missing table pk s H).
  - left. eexists. reflexivity.
  - left. eexists. reflexivity.
Qed.

(** A posted id that names a key is read as that key. *)
Lemma related_posted_key {A} (table : Store -> gmap positive A) (id : string) (pk : positive)
    (s : Store) :
  pk_of_post id = Some pk -> related_posted table id s = related table pk None s.
Proof.
  unfold related_posted, pk_of_post.
  destruct (int_of_post id) as [[| pk0 | pk0] |]; intros H; inversion H. reflexivity.
Qed.

(** On posted ids that name keys, [Transfer.save] does what it does on the
    instance built with these keys and nothing cached. *)
Lemma Transfer_save_posted_keys (user from_account to_account : positive)
    (from_id to_id : string) (amount : Z) (s : Store) :
  pk_of_post from_id = Some from_account -> pk_of_post to_id = Some to_account ->
  Transfer_save_posted user from_id to_id amount s
    = Transfer_save None (mkTransfer user from_account to_account amount) None None s.
Proof.
  intros Hf Ht. unfold Transfer_save_posted, Transfer_save, atomic.
  unfold mbind, M_bind. cbn [tr_from_account tr_to_account tr_amount].
  rewrite (related_posted_key accounts from_id from_account s Hf).
  destruct (related accounts from_account None s) as [s1 [e1 | src]] eqn:R; [reflexivity |].
  assert (Hsrc : src.1 = from_account).
  { revert R. unfold related, mbind, M_bind, get_store.
    destruct (accounts s !! from_account); intros R; inversion R; reflexivity. }
  destruct (withdraw src amount s1) as [s2 [e2 | src']]; [reflexivity |].
  rewrite (related_posted_key accounts to_id to_account s2 Ht).
  destruct (related accounts to_account None s2) as [s3 [e3 | dst]] eqn:R'; [reflexivity |].
  assert (Hdst : dst.1 = to_account).
  { revert R'. unfold related, mbind, M_bind, get_store.
    destruct (accounts s2 !! to_account); intros R'; inversion R'; reflexivity. }
  destruct (deposit dst amount s3) as [s4 [e4 | dst']]; [reflexivity |].
  rewrite Hsrc, Hdst. reflexivity.
Qed.

Lemma process_transfer_outcome (user : positive) (from_id to_id : string) (amount : Z)
    (s : Store) :
  let r := process_transfer user from_id to_id amount s in
  (exists err, r = (s, inl err)) \/
  exists from_account to_account src dst,
    from_id <> to_id /\
    pk_of_post from_id = Some from_account /\ pk_of_post to_id = Some to_account /\
    accounts s !! from_account = Some src /\ amount <= balance src /\
    accounts (saved from_account (with_balance src (balance src - amount)) s) !! to_account
      = Some dst /\
    r = (transferred user from_account to_account amount src dst s, inr tt).
Proof.
  intros r.
  assert (Hr : r = process_transfer user from_id to_id amount s) by reflexivity.
  clearbody r. revert Hr. unfold process_transfer.
  destruct (decide (from_id = to_id)) as [Heq | Hne];
    [intros ->; left; eexists; reflexivity |].
  unfold mbind at 1, M_bind at 1, Transfer_save_posted, atomic.
  unfold mbind at 1, M_bind at 1.
  destruct (related_posted_cases accounts from_id s)
    as [[err E] | (from_account & src & Hf & Hs & E)]; rewrite E;
    [intros ->; left; eexists; reflexivity |].
  cbv beta iota. unfold mbind at 1, M_bind at 1.
  destruct (withdraw_cases (from_account, src) amount s) as [[_ W] | [Hge W]]; rewrite W;
    [intros ->; left; eexists; reflexivity |].
  cbv beta iota. unfold mbind at 1, M_bind at 1.
  destruct (related_posted_cases accounts to_id
              (saved (from_account, src).1
                 (with_balance (from_account, src).2 (balance (from_account, src).2 - amount)) s))
    as [[err E'] | (to_account & dst & Ht & Hd & E')]; rewrite E';
    [intros ->; left; eexists; reflexivity |].
  intros ->. right. exists from_account, to_account, src, dst.
  repeat (split; [assumption |]). reflexivity.
Qed.




Lemma Transfer_save_failure_restores (pk : option positive) (self : Transfer)
    (from_account to_account : option Account) (s s' : Store) (e : error) :
  Transfer_save pk self from_account to_account s = (s', inl e) -> s' = s.
Proof. apply atomic_failure_restores. Qed.

(** A transfer between two distinct accounts of the acting user whose source
    balance is below the amount ends with [InsufficientFunds], through either
    view, and leaves the store as it was: no deposit, no [Transfer] row. *)
Lemma transfer_short_restores (user from_account to_account : positive) (amount : Z)
    (from_id to_id : string) (s : Store) (src dst : Account) :
  accounts s !! from_account = Some src -> acc_user src = user ->
  accounts s !! to_account = Some dst -> acc_user dst = user ->
  from_account <> to_account -> balance src < amount ->
  pk_of_post from_id = Some from_account -> pk_of_post to_id = Some to_account ->
  accounts_dashboard_transfer_money user from_account to_account amount s
    = (s, inl InsufficientFunds) /\
  process_transfer user from_id to_id amount s = (s, inl InsufficientFunds).
Proof.
  intros Hs Hsu Hd Hdu Hne Hlt Hf Ht. split.
  - unfold accounts_dashboard_transfer_money, atomic, mbind at 1, M_bind at 1.
    rewrite (get_object_found accounts acc_user from_account user src s Hs Hsu).
    cbv beta iota. unfold mbind at 1, M_bind at 1.
    rewrite (get_object_found accounts acc_user to_account user dst s Hd Hdu).
    cbv beta iota. cbn [fst snd].
    destruct (decide (from_account = to_account)); [contradiction |].
    unfold mbind at 1, M_bind at 1, Transfer_save, atomic, mbind at 1, M_bind at 1.
    unfold mbind at 1, M_bind at 1. cbn [tr_from_account tr_to_account tr_amount].
    rewrite related_cached. cbv beta iota. unfold mbind at 1, M_bind at 1.
    rewrite (withdraw_short (from_account, src) amount s Hlt). reflexivity.
  - unfold process_transfer.
    destruct (decide (from_id = to_id)) as [Heq | _]; [congruence |].
    unfold mbind at 1, M_bind at 1.
    rewrite (Transfer_save_posted_keys user from_account to_account from_id to_id amount s
               Hf Ht).
    unfold Transfer_save, atomic, mbind at 1, M_bind at 1.
    unfold mbind at 1, M_bind at 1. cbn [tr_from_account tr_to_account tr_amount].
    rewrite (related_read accounts from_account src s Hs). cbv beta iota.
    unfold mbind at 1, M_bind at 1.
    rewrite (withdraw_short (from_account, src) amount s Hlt). reflexivity.
Qed.

(** [process_transfer] reads the destination after the withdrawal was saved.
    When the posted destination names no account the transfer ends with
    [DoesNotExist], and the [atomic] block of [Transfer.save] takes the
    withdrawal back. *)
Lemma process_transfer_rolls_back (user from_account to_account : positive) (amount : Z)
    (from_id to_id : string) (s : Store) (src : Account) :
  accounts s !! from_account = Some src -> amount <= balance src ->
  accounts s !! to_account = None -> from_account <> to_account ->
  pk_of_post from_id = Some from_account -> pk_of_post to_id = Some to_account ->
  (src0 ← related accounts from_account None; withdraw src0 amount) s
    = (saved from_account (with_balance src (balance src - amount)) s,
       inr (from_account, with_balance src (balance src - amount))) /\
  process_transfer user from_id to_id amount s = (s, inl DoesNotExist).
Proof.
  intros Hs Hle Hd Hne Hf Ht. split.
  - unfold mbind, M_bind. rewrite (related_read accounts from_account src s Hs).
    exact (withdraw_enough (from_account, src) amount s Hle).
  - unfold process_transfer.
    destruct (decide (from_id = to_id)) as [Heq | _]; [congruence |].
    unfold mbind at 1, M_bind at 1.
    rewrite (Transfer_save_posted_keys user from_account to_account from_id to_id amount s
               Hf Ht).
    unfold Transfer_save, atomic, mbind at 1, M_bind at 1.
    unfold mbind at 1, M_bind at 1. cbn [tr_from_account tr_to_account tr_amount].
    rewrite (related_read accounts from_account src s Hs). cbv beta iota.
    unfold mbind at 1, M_bind at 1.
    rewrite (withdraw_enough (from_account, src) amount s Hle). cbv beta iota.
    unfold mbind at 1, M_bind at 1.
    rewrite (related_missing accounts to_account (saved _ _ s)); [reflexivity |].
    cbn [accounts saved set_accounts fst]. rewrite lookup_insert_ne by exact Hne. exact Hd.
Qed.

(** C7, what the code does: [process_transfer] compares the two posted ids as
    strings, before they are turned into keys.  "1" and "01" are different
    strings and name the same account, "cash" of user 1.  The transfer from
    "cash" to "cash" that [accounts_dashboard] refuses with [SameAccount],
    and that [process_transfer] refuses when both ids are "1", goes through
    with the ids "1" and "01": the amount is withdrawn from "cash" and
    deposited back, two account saves, and a [Transfer] row from the account
    to itself is written. *)
Theorem same_row_transfer_not_refused :
  pk_of_post "1" = Some 1%positive /\ pk_of_post "01" = Some 1%positive /\
  accounts_dashboard_transfer_money 1 1 1 20000 sample_store
    = (sample_store, inl SameAccount) /\
  process_transfer 1 "1" "1" 20000 sample_store = (sample_store, inl SameAccount) /\
  snd (process_transfer 1 "1" "01" 20000 sample_store) = inr tt /\
  transfers (fst (process_transfer 1 "1" "01" 20000 sample_store))
    = {[ 1%positive := mkTransfer 1 1 1 20000 ]} /\
  account_saves (fst (process_transfer 1 "1" "01" 20000 sample_store))
    = [(1%positive, 50000); (1%positive, 30000)] /\
  balance_of (fst (process_transfer 1 "1" "01" 20000 sample_store)) 1 = Some 50000.
Proof. vm_compute. repeat split; reflexivity. Qed.

(** ** Debts and payments *)

Lemma apply_payment_type (d : Debt) (amount : Z) :
  debt_type (apply_payment d amount) = debt_type d.
Proof. unfold apply_payment. simpl. destruct (_ =? 0); reflexivity. Qed.

Lemma Debt_save_existing (pk : positive) (self : Debt) (account : option Account) (s : Store) :
  Debt_save (Some pk) self account s = (set_debts (<[pk := self]>) s, inr (pk, self)).
Proof. reflexivity. Qed.

Lemma DebtPayment_save_over (pk : option positive) (self : DebtPayment) (debt : Debt)
    (account : option Account) (s : Store) :
  amount_paid self > remaining_amount debt ->
  DebtPayment_save pk self debt account s = (s, inl OverPayment).
Proof.
  intros H. unfold DebtPayment_save, atomic.
  destruct (Z.gtb_spec (amount_paid self) (remaining_amount debt)); [reflexivity | lia].
Qed.

Lemma DebtPayment_save_accepted (pk : option positive) (self : DebtPayment) (debt : Debt)
    (account : option Account) (s : Store) :
  amount_paid self <= remaining_amount debt ->
  DebtPayment_save pk self debt account s =
    match
      (acc ← related accounts (dp_account self) account;
       _ ← (if String.eqb (debt_type debt) "payable"
            then withdraw acc (amount_paid self)
            else deposit acc (amount_paid self));
       Model_save payments set_payments pk self)
        (set_debts (<[dp_debt self := apply_payment debt (amount_paid self)]>) s)
    with
    | (s', inr x) => (s', inr x)
    | (_, inl e) => (s, inl e)
    end.
Proof.
  intros H. unfold DebtPayment_save, atomic.
  destruct (Z.gtb_spec (amount_paid self) (remaining_amount debt)); [lia |].
  cbv zeta.
  change (if remaining_amount (with_remaining debt (remaining_amount debt - amount_paid self)) =? 0
          then with_settled (with_remaining debt (remaining_amount debt - amount_paid self)) true
          else with_remaining debt (remaining_amount debt - amount_paid self))
    with (apply_payment debt (amount_paid self)).
  rewrite apply_payment_type.
  unfold mbind at 1. unfold M_bind at 1. rewrite Debt_save_existing.
  reflexivity.
Qed.

Lemma make_payment_outcome (user debt_id account : positive) (amount : Z) (s : Store) :
  let r := debt_dashboard_make_payment user debt_id account amount s in
  r = (s, inl Http404) \/
  exists d,
    debts s !! debt_id = Some d /\ debt_user d = user /\
    ((amount > remaining_amount d /\ r = (s, inl OverPayment)) \/
     (amount <= remaining_amount d /\
      ((accounts s !! account = None /\ r = (s, inl DoesNotExist)) \/
       exists a,
         accounts s !! account = Some a /\
         ((debt_type d = "payable" /\ balance a < amount /\
           r = (s, inl InsufficientFunds)) \/
          ((debt_type d = "payable" -> amount <= balance a) /\
           r = (payment_recorded debt_id account amount d a s, inr tt)))))).
Proof.
  intros r.
  assert (Hr : r = debt_dashboard_make_payment user debt_id account amount s) by reflexivity.
  clearbody r. revert Hr.
  unfold debt_dashboard_make_payment, atomic, mbind at 1, M_bind at 1.
  destruct (get_object_cases debts debt_user debt_id user s)
    as [E | (d & Hd & Hdu & E)]; rewrite E; [intros ->; left; reflexivity |].
  unfold mbind at 1, M_bind at 1. cbn [fst snd].
  intros Hr. right. exists d. split; [exact Hd |]. split; [exact Hdu |].
  destruct (Z.le_gt_cases amount (remaining_amount d)) as [Hle | Hgt].
  2: { left. split; [lia |]. rewrite Hr.
       rewrite DebtPayment_save_over; [reflexivity | simpl; lia]. }
  right. split; [exact Hle |].
  rewrite DebtPayment_save_accepted in Hr by exact Hle.
  cbn [dp_debt dp_account amount_paid] in Hr.
  set (s1 := set_debts _ s) in Hr.
  assert (Hacc : accounts s1 = accounts s) by reflexivity.
  unfold mbind at 1, M_bind at 1 in Hr.
  destruct (accounts s !! account) as [a |] eqn:Ha.
  2: { left. split; [reflexivity |].
       rewrite (related_missing accounts account s1) in Hr by (rewrite Hacc; exact Ha).
       exact Hr. }
  right. exists a. split; [reflexivity |].
  rewrite (related_read accounts account a s1) in Hr by (rewrite Hacc; exact Ha).
  unfold mbind at 1, M_bind at 1 in Hr.
  destruct (String.eqb_spec (debt_type d) "payable") as [Hp | Hp].
  - destruct (withdraw_cases (account, a) amount s1) as [[Hlt W] | [Hge W]];
      rewrite W in Hr.
    + left. repeat split; [exact Hp | exact Hlt | exact Hr].
    + right. split; [intros _; exact Hge |].
      rewrite Hr. unfold payment_recorded. rewrite Hp. reflexivity.
  - right. split; [intros; contradiction |].
    rewrite Hr. unfold payment_recorded.
    destruct (String.eqb_spec (debt_type d) "payable"); [contradiction | reflexivity].
Qed.


(** C3: a payment above the current remaining amount of the debt is refused
    with [OverPayment], by [DebtPayment.save] and so by the view, and the
    store is left as it was: remaining amount, settled flag, every balance
    and the payment rows.  The bound is [remaining_amount], the initial
    amount plays no part. *)
Theorem overpayment_rejected (user debt_id account : positive) (amount : Z) (s : Store)
    (d : Debt) :
  debts s !! debt_id = Some d -> debt_user d = user ->
  amount > remaining_amount d ->
  debt_dashboard_make_payment user debt_id account amount s = (s, inl OverPayment) /\
  forall pk cache,
    DebtPayment_save pk (mkDebtPayment debt_id account amount) d cache s
      = (s, inl OverPayment).
Proof.
  intros Hd Hu Hgt. split.
  - destruct (make_payment_outcome user debt_id account amount s)
      as [E | (d0 & Hd0 & _ & [[_ E] | [Hle _]])].
    + exfalso. revert E. unfold debt_dashboard_make_payment, atomic, mbind at 1, M_bind at 1.
      rewrite (get_object_found debts debt_user debt_id user d s Hd Hu).
      unfold mbind, M_bind. rewrite DebtPayment_save_over by (simpl; lia). discriminate.
    + exact E.
    + rewrite Hd in Hd0. inversion Hd0; subst d0. lia.
  - intros pk cache. apply DebtPayment_save_over. simpl. lia.
Qed.

Lemma overpayment_rejected_witness :
  debt_status partly_paid_store 1 = Some (60000, false) /\
  (initial_amount <$> debts partly_paid_store !! 1%positive) = Some 100000 /\
  debt_dashboard_make_payment 1 1 2 70000 partly_paid_store
    = (partly_paid_store, inl OverPayment).
Proof.
  split; [vm_compute; reflexivity |]. split; [vm_compute; reflexivity |].
  apply (overpayment_rejected 1 1 2 70000 partly_paid_store
           (mkDebt 1 1 100000 60000 "payable" 2 false)).
  - vm_compute. reflexivity.
  - reflexivity.
  - simpl. lia.
Defined.

(** C4, what the code does: [DebtPayment.save] has no lower bound on the
    amount.  On the debt that was borrowed, paid back in full and settled, a
    payment of -50.00 is accepted: the remaining amount goes up from 0 to
    50.00 and the debt stays flagged settled. *)
Theorem negative_payment_reopens_settled_debt :
  debt_status settled_store 1 = Some (0, true) /\
  snd (debt_dashboard_make_payment 1 1 2 (-5000) settled_store) = inr tt /\
  debt_status (fst (debt_dashboard_make_payment 1 1 2 (-5000) settled_store)) 1
    = Some (5000, true).
Proof. vm_compute. repeat split; reflexivity. Qed.

(** C1, what the code does: a payment on a receivable debt is deposited
    without a sign check.  "bank" holds 0.00; a payment of -50.00 on the
    receivable debt posted to "bank" is accepted and leaves it at -50.00. *)
Theorem negative_payment_overdraws_account :
  balance_of lent_store 2 = Some 0 /\
  debt_status lent_store 1 = Some (10000, false) /\
  snd (debt_dashboard_make_payment 1 1 2 (-5000) lent_store) = inr tt /\
  balance_of (fst (debt_dashboard_make_payment 1 1 2 (-5000) lent_store)) 2
    = Some (-5000).
Proof. vm_compute. repeat split; reflexivity. Qed.

(** ** Ledger entries *)

Ltac step :=
  cbv beta iota;
  cbn [fst snd exp_account exp_amount inc_account inc_amount debt_account debt_type
       initial_amount].

Lemma saved_one_mutation (account : positive) (a : Account) (delta : Z) (s : Store) :
  accounts s !! account = Some a ->
  one_mutation s (saved account (with_balance a (balance a + delta)) s) account delta.
Proof. intros Ha. exists a. repeat split. exact Ha. Qed.

Lemma add_expense_enough (user account category : positive) (title : string) (amount : Z)
    (s : Store) (a : Account) (c : Category) :
  accounts s !! account = Some a -> acc_user a = user ->
  categories s !! category = Some c -> cat_user c = user ->
  amount <= balance a ->
  add_expense user account category title amount s =
    (set_expenses
       (<[new_pk (expenses s) := mkExpense user account (Some category) title amount true]>)
       (saved account (with_balance a (balance a - amount)) s),
     inr tt).
Proof.
  intros Ha Hau Hc Hcu Hle.
  unfold add_expense, atomic, mbind at 1, M_bind at 1.
  rewrite (get_object_found accounts acc_user account user a s Ha Hau). step.
  unfold mbind at 1, M_bind at 1.
  rewrite (get_object_found categories cat_user category user c s Hc Hcu). step.
  unfold mbind at 1, M_bind at 1, Expense_save, atomic, mbind at 1, M_bind at 1.
  unfold mbind at 1, M_bind at 1. step. rewrite related_cached. step.
  unfold mbind at 1, M_bind at 1.
  rewrite (withdraw_enough (account, a) amount s Hle). reflexivity.
Qed.

Lemma add_expense_short (user account category : positive) (title : string) (amount : Z)
    (s : Store) (a : Account) (c : Category) :
  accounts s !! account = Some a -> acc_user a = user ->
  categories s !! category = Some c -> cat_user c = user ->
  balance a < amount ->
  add_expense user account category title amount s = (s, inl InsufficientFunds).
Proof.
  intros Ha Hau Hc Hcu Hlt.
  unfold add_expense, atomic, mbind at 1, M_bind at 1.
  rewrite (get_object_found accounts acc_user account user a s Ha Hau). step.
  unfold mbind at 1, M_bind at 1.
  rewrite (get_object_found categories cat_user category user c s Hc Hcu). step.
  unfold mbind at 1, M_bind at 1, Expense_save, atomic, mbind at 1, M_bind at 1.
  unfold mbind at 1, M_bind at 1. step. rewrite related_cached. step.
  unfold mbind at 1, M_bind at 1.
  rewrite (withdraw_short (account, a) amount s Hlt). reflexivity.
Qed.

Lemma income_list_view_valid (user account category : positive) (source : string)
    (amount : Z) (s : Store) (a : Account) (c : Category) :
  accounts s !! account = Some a -> acc_user a = user ->
  categories s !! category = Some c -> cat_user c = user ->
  source <> ""%string -> 0 < amount ->
  income_list_view user account category source amount s =
    (set_incomes
       (<[new_pk (incomes s) := mkIncome user account (Some category) source amount true]>)
       (saved account (with_balance a (balance a + amount)) s),
     inr tt).
Proof.
  intros Ha Hau Hc Hcu Hsrc Hpos.
  unfold income_list_view, atomic.
  destruct (String.eqb_spec source ""); [contradiction |].
  destruct (Z.gtb_spec amount 0); [| lia]. cbn [negb andb].
  unfold mbind at 1, M_bind at 1.
  rewrite (get_object_found categories cat_user category user c s Hc Hcu). step.
  unfold mbind at 1, M_bind at 1.
  rewrite (get_object_found accounts acc_user account user a s Ha Hau). reflexivity.
Qed.

Lemma delete_expense_found (user pk : positive) (s : Store) (e : Expense) (a : Account) :
  expenses s !! pk = Some e -> exp_user e = user ->
  accounts s !! exp_account e = Some a ->
  delete_expense user pk s =
    (set_expenses (<[pk := deactivated e]>)
       (saved (exp_account e) (with_balance a (balance a + exp_amount e)) s),
     inr tt).
Proof.
  intros He Heu Ha.
  unfold delete_expense, mbind at 1, M_bind at 1.
  rewrite (get_object_found expenses exp_user pk user e s He Heu). step.
  unfold atomic, mbind at 1, M_bind at 1.
  rewrite (related_read accounts (exp_account e) a s Ha). reflexivity.
Qed.





Section EditExpense.

Variables (user pk category : positive) (title : string) (amount : Z).
Variables (s : Store) (e : Expense) (a : Account) (c : Category).
Hypothesis He : expenses s !! pk = Some e.
Hypothesis Heu : exp_user e = user.
Hypothesis Ha : accounts s !! exp_account e = Some a.
Hypothesis Hc : categories s !! category = Some c.
Hypothesis Hcu : cat_user c = user.

Lemma edit_expense_raise_enough :
  Qltb (float_of (exp_amount e)) (float_of amount) = true ->
  Qltb (Decimal_of (balance a))
       (Decimal_str (float_sub (float_of amount) (float_of (exp_amount e)))) = false ->
  edit_expense user pk title amount category s =
    (set_expenses
       (<[pk := edited e category title (DecimalField_of_float 10 (float_of amount))]>)
       (saved (exp_account e)
          (with_balance a
             (quantize (Decimal_of (balance a)
                        - Decimal_str (float_sub (float_of amount) (float_of (exp_amount e))))))
          s),
     inr tt).
Proof using He Heu Ha Hc Hcu.
  intros Hgt Hle.
  unfold edit_expense, mbind at 1, M_bind at 1.
  rewrite (get_object_found expenses exp_user pk user e s He Heu). step.
  unfold atomic, mbind at 1, M_bind at 1. cbv zeta. rewrite Hgt.
  unfold mbind at 1, M_bind at 1.
  rewrite (related_read accounts (exp_account e) a s Ha). step.
  rewrite (withdraw_float_enough (exp_account e, a) _ s Hle). step.
  unfold mbind at 1, M_bind at 1.
  rewrite (get_object_found categories cat_user category user c (saved _ _ s) Hc Hcu).
  reflexivity.
Qed.

Lemma edit_expense_raise_short :
  Qltb (float_of (exp_amount e)) (float_of amount) = true ->
  Qltb (Decimal_of (balance a))
       (Decimal_str (float_sub (float_of amount) (float_of (exp_amount e)))) = true ->
  edit_expense user pk title amount category s = (s, inl InsufficientFunds).
Proof using He Heu Ha.
  intros Hgt Hlt. clear Hc Hcu.
  unfold edit_expense, mbind at 1, M_bind at 1.
  rewrite (get_object_found expenses exp_user pk user e s He Heu). step.
  unfold atomic, mbind at 1, M_bind at 1. cbv zeta. rewrite Hgt.
  unfold mbind at 1, M_bind at 1.
  rewrite (related_read accounts (exp_account e) a s Ha). step.
  rewrite (withdraw_float_short (exp_account e, a) _ s Hlt). reflexivity.
Qed.

Lemma edit_expense_lower :
  Qltb (float_of (exp_amount e)) (float_of amount) = false ->
  Qltb (float_of amount) (float_of (exp_amount e)) = true ->
  edit_expense user pk title amount category s =
    (set_expenses
       (<[pk := edited e category title (DecimalField_of_float 10 (float_of amount))]>)
       (saved (exp_account e)
          (with_balance a
             (quantize (Decimal_of (balance a)
                        + Decimal_str (float_sub (float_of (exp_amount e)) (float_of amount)))))
          s),
     inr tt).
Proof using He Heu Ha Hc Hcu.
  intros Hgt Hlt.
  unfold edit_expense, mbind at 1, M_bind at 1.
  rewrite (get_object_found expenses exp_user pk user e s He Heu). step.
  unfold atomic, mbind at 1, M_bind at 1. cbv zeta. rewrite Hgt, Hlt.
  unfold mbind at 1, M_bind at 1.
  rewrite (related_read accounts (exp_account e) a s Ha). step.
  rewrite deposit_float_eq. step.
  unfold mbind at 1, M_bind at 1.
  rewrite (get_object_found categories cat_user category user c (saved _ _ s) Hc Hcu).
  reflexivity.
Qed.

Lemma edit_expense_same :
  Qltb (float_of (exp_amount e)) (float_of amount) = false ->
  Qltb (float_of amount) (float_of (exp_amount e)) = false ->
  edit_expense user pk title amount category s =
    (set_expenses
       (<[pk := edited e category title (DecimalField_of_float 10 (float_of amount))]>) s,
     inr tt).
Proof using He Heu Hc Hcu.
  intros Hgt Hlt.
  unfold edit_expense, mbind at 1, M_bind at 1.
  rewrite (get_object_found expenses exp_user pk user e s He Heu). step.
  unfold atomic, mbind at 1, M_bind at 1. cbv zeta. rewrite Hgt, Hlt.
  unfold mret at 1, M_ret at 1. unfold mbind at 1, M_bind at 1.
  rewrite (get_object_found categories cat_user category user c s Hc Hcu). reflexivity.
Qed.

End EditExpense.

(** What [float_keeps] decides. *)
Lemma float_keeps_spec (new old : Z) :
  float_keeps new old = true ->
  DecimalField_of_float 10 (float_of new) = new /\
  (old < new ->
   Qltb (float_of old) (float_of new) = true /\
   near (edit_decimal new old) (new - old) = true) /\
  (new < old ->
   Qltb (float_of old) (float_of new) = false /\
   Qltb (float_of new) (float_of old) = true /\
   near (edit_decimal old new) (old - new) = true) /\
  (new = old ->
   Qltb (float_of old) (float_of new) = false /\
   Qltb (float_of new) (float_of old) = false).
Proof.
  unfold float_keeps. intros H. apply andb_prop in H. destruct H as [Hcmp Hst].
  apply Z.eqb_eq in Hst. split; [exact Hst |].
  destruct (Z.compare_spec new old) as [Heq | Hlt | Hgt].
  - split; [lia |]. split; [lia |]. intros _. subst old. split; apply Qltb_irrefl.
  - split; [lia |]. split; [| lia]. intros _.
    apply andb_prop in Hcmp. destruct Hcmp as [Hcmp Hn].
    apply andb_prop in Hcmp. destruct Hcmp as [H1 H2].
    apply negb_true_iff in H1. repeat split; assumption.
  - split; [| split; lia]. intros _.
    apply andb_prop in Hcmp. destruct Hcmp as [H1 Hn]. split; assumption.
Qed.




(** ** Creating a debt *)

Lemma one_mutation_balance (s s' : Store) (account : positive) (delta : Z) (a : Account) :
  accounts s !! account = Some a -> one_mutation s s' account delta ->
  balance_of s' account = Some (balance a + delta).
Proof.
  intros Ha (a0 & Ha0 & Hacc & _). rewrite Ha in Ha0. inversion Ha0; subst a0.
  unfold balance_of. rewrite Hacc, lookup_insert_eq. reflexivity.
Qed.

Lemma check_foreign_key_found {A} (table : Store -> gmap positive A) (id : positive) (row : A)
    (s : Store) :
  table s !! id = Some row -> check_foreign_key table id s = (s, inr tt).
Proof. intros H. unfold check_foreign_key, mbind, M_bind, get_store. rewrite H. reflexivity. Qed.

Lemma check_foreign_key_missing {A} (table : Store -> gmap positive A) (id : positive)
    (s : Store) :
  table s !! id = None -> check_foreign_key table id s = (s, inl ForeignKeyViolation).
Proof. intros H. unfold check_foreign_key, mbind, M_bind, get_store. rewrite H. reflexivity. Qed.

(** [Debt.save] of a new debt on an existing account. *)
Lemma Debt_save_new (user contact account : positive) (amount : Z) (ty : string) (s : Store)
    (a : Account) :
  accounts s !! account = Some a ->
  Debt_save None (mkDebt user contact amount 0 ty account false) None s =
    if String.eqb ty "payable" then
      (debt_created user contact account amount ty a (balance a + amount) s,
       inr (new_pk (debts s), mkDebt user contact amount amount ty account false))
    else if balance a <? amount then (s, inl InsufficientFunds)
    else
      (debt_created user contact account amount ty a (balance a - amount) s,
       inr (new_pk (debts s), mkDebt user contact amount amount ty account false)).
Proof.
  intros Ha. unfold Debt_save, atomic, mbind at 1, M_bind at 1. step.
  unfold mbind at 1, M_bind at 1. cbn [with_remaining debt_account].
  rewrite (related_read accounts account a s Ha). step.
  unfold mbind at 1, M_bind at 1. cbn [with_remaining debt_type initial_amount].
  destruct (String.eqb ty "payable"); [reflexivity |].
  unfold withdraw. cbn [fst snd]. destruct (balance a <? amount); reflexivity.
Qed.

Lemma add_debt_payable (user contact account : positive) (amount : Z) (s : Store)
    (a : Account) (ct : Contact) :
  accounts s !! account = Some a -> contacts s !! contact = Some ct ->
  debt_dashboard_add_debt user contact account amount "payable" s =
    (set_debts
       (<[new_pk (debts s) := mkDebt user contact amount amount "payable" account false]>)
       (saved account (with_balance a (balance a + amount)) s),
     inr tt).
Proof.
  intros Ha Hct.
  unfold debt_dashboard_add_debt, atomic, mbind at 1, M_bind at 1.
  rewrite (Debt_save_new user contact account amount "payable" s a Ha).
  change (String.eqb "payable" "payable") with true. cbv beta iota.
  rewrite (check_foreign_key_found contacts contact ct
             (debt_created user contact account amount "payable" a (balance a + amount) s)
             Hct).
  reflexivity.
Qed.

Lemma add_debt_other (user contact account : positive) (amount : Z) (ty : string)
    (s : Store) (a : Account) (ct : Contact) :
  accounts s !! account = Some a -> contacts s !! contact = Some ct ->
  ty <> "payable"%string -> amount <= balance a ->
  debt_dashboard_add_debt user contact account amount ty s
    = (debt_created user contact account amount ty a (balance a - amount) s, inr tt).
Proof.
  intros Ha Hct Hty Hle.
  unfold debt_dashboard_add_debt, atomic, mbind at 1, M_bind at 1.
  rewrite (Debt_save_new user contact account amount ty s a Ha).
  destruct (String.eqb_spec ty "payable"); [contradiction |].
  destruct (Z.ltb_spec (balance a) amount); [lia |]. cbv beta iota.
  rewrite (check_foreign_key_found contacts contact ct
             (debt_created user contact account amount ty a (balance a - amount) s) Hct).
  reflexivity.
Qed.

Lemma add_debt_other_short (user contact account : positive) (amount : Z) (ty : string)
    (s : Store) (a : Account) :
  accounts s !! account = Some a -> ty <> "payable"%string -> balance a < amount ->
  debt_dashboard_add_debt user contact account amount ty s = (s, inl InsufficientFunds).
Proof.
  intros Ha Hty Hlt.
  unfold debt_dashboard_add_debt, atomic, mbind at 1, M_bind at 1.
  rewrite (Debt_save_new user contact account amount ty s a Ha).
  destruct (String.eqb_spec ty "payable"); [contradiction |].
  destruct (Z.ltb_spec (balance a) amount); [reflexivity | lia].
Qed.




(** ** Deactivating twice *)

(** C10: [delete_expense] does not look at [is_active].  For an expense of
    the acting user, active or not, the request succeeds and deposits the
    expense amount; the row is then inactive, and the same request made again
    succeeds and deposits the amount again: after two requests the balance is
    up by twice the amount. *)
Theorem double_deactivation_refunds_twice (user pk : positive) (s : Store) (e : Expense)
    (a : Account) :
  expenses s !! pk = Some e -> exp_user e = user ->
  accounts s !! exp_account e = Some a ->
  exists s1 s2,
    delete_expense user pk s = (s1, inr tt) /\
    balance_of s1 (exp_account e) = Some (balance a + exp_amount e) /\
    (exp_is_active <$> expenses s1 !! pk) = Some false /\
    delete_expense user pk s1 = (s2, inr tt) /\
    balance_of s2 (exp_account e) = Some (balance a + 2 * exp_amount e) /\
    one_mutation s s1 (exp_account e) (exp_amount e) /\
    one_mutation s1 s2 (exp_account e) (exp_amount e).
Proof.
  intros He Heu Ha.
  pose (a1 := with_balance a (balance a + exp_amount e)).
  pose (s1 := set_expenses (<[pk := deactivated e]>) (saved (exp_account e) a1 s)).
  assert (He1 : expenses s1 !! pk = Some (deactivated e)) by apply lookup_insert_eq.
  assert (Ha1 : accounts s1 !! exp_account (deactivated e) = Some a1)
    by apply lookup_insert_eq.
  assert (Hm1 : one_mutation s s1 (exp_account e) (exp_amount e))
    by exact (saved_one_mutation (exp_account e) a (exp_amount e) s Ha).
  exists s1. eexists.
  split; [exact (delete_expense_found user pk s e a He Heu Ha) |].
  split; [exact (one_mutation_balance s s1 _ _ a Ha Hm1) |].
  split; [rewrite He1; reflexivity |].
  split; [exact (delete_expense_found user pk s1 (deactivated e) a1 He1 Heu Ha1) |].
  split; [| split; [exact Hm1 |]].
  - unfold balance_of. cbn [accounts set_expenses saved set_accounts].
    rewrite lookup_insert_eq. cbn. f_equal. lia.
  - exact (saved_one_mutation (exp_account e) a1 (exp_amount e) s1 Ha1).
Qed.

Lemma double_deactivation_refunds_twice_witness :
  balance_of spent_store 1 = Some 50000 /\
  exists s1 s2,
    delete_expense 1 1 spent_store = (s1, inr tt) /\
    balance_of s1 1 = Some 60000 /\
    (exp_is_active <$> expenses s1 !! 1%positive) = Some false /\
    delete_expense 1 1 s1 = (s2, inr tt) /\
    balance_of s2 1 = Some 70000.
Proof.
  split; [vm_compute; reflexivity |].
  destruct (double_deactivation_refunds_twice 1 1 spent_store
              (mkExpense 1 1 (Some 1%positive) "rice" 10000 true)
              (mkAccount 1 "cash" 50000 true))
    as (s1 & s2 & E1 & B1 & I1 & E2 & B2 & _);
    [vm_compute; reflexivity | reflexivity | vm_compute; reflexivity |].
  exists s1, s2. repeat split; assumption.
Defined.

(** ** Ownership *)

(** The views that read a referenced row with [get_object_or_404(..., user=
    request.user)] refuse a row of another user with [Http404] and leave the
    store as it was. *)
Lemma guarded_views_reject_foreign (user : positive) (s : Store) :
  (forall from_account to_account amount a,
     accounts s !! from_account = Some a -> acc_user a <> user ->
     accounts_dashboard_transfer_money user from_account to_account amount s
       = (s, inl Http404)) /\
  (forall account category title amount a,
     accounts s !! account = Some a -> acc_user a <> user ->
     add_expense user account category title amount s = (s, inl Http404)) /\
  (forall pk title amount category e,
     expenses s !! pk = Some e -> exp_user e <> user ->
     edit_expense user pk title amount category s = (s, inl Http404)) /\
  (forall pk e,
     expenses s !! pk = Some e -> exp_user e <> user ->
     delete_expense user pk s = (s, inl Http404)) /\
  (forall debt_id account amount d,
     debts s !! debt_id = Some d -> debt_user d <> user ->
     debt_dashboard_make_payment user debt_id account amount s = (s, inl Http404)).
Proof.
  repeat split.
  - intros from_account to_account amount a Ha Hu.
    unfold accounts_dashboard_transfer_money, atomic, mbind at 1, M_bind at 1.
    rewrite (get_object_foreign accounts acc_user from_account user a s Ha Hu). reflexivity.
  - intros account category title amount a Ha Hu.
    unfold add_expense, atomic, mbind at 1, M_bind at 1.
    rewrite (get_object_foreign accounts acc_user account user a s Ha Hu). reflexivity.
  - intros pk title amount category e He Hu.
    unfold edit_expense, mbind at 1, M_bind at 1.
    rewrite (get_object_foreign expenses exp_user pk user e s He Hu). reflexivity.
  - intros pk e He Hu.
    unfold delete_expense, mbind at 1, M_bind at 1.
    rewrite (get_object_foreign expenses exp_user pk user e s He Hu). reflexivity.
  - intros debt_id account amount d Hd Hu.
    unfold debt_dashboard_make_payment, atomic, mbind at 1, M_bind at 1.
    rewrite (get_object_foreign debts debt_user debt_id user d s Hd Hu). reflexivity.
Qed.

(** [edit_expense] reads the category after the balance was adjusted; the
    [atomic] block takes the adjustment back when the category is not the
    user's. *)
Lemma edit_expense_failure_restores (user pk category : positive) (title : string)
    (amount : Z) (s s' : Store) (err : error) :
  edit_expense user pk title amount category s = (s', inl err) -> s' = s.
Proof.
  unfold edit_expense, mbind at 1, M_bind at 1.
  destruct (get_object_cases expenses exp_user pk user s) as [E | (e & _ & _ & E)];
    rewrite E.
  - intros H. inversion H. reflexivity.
  - step. apply atomic_failure_restores.
Qed.

(** C9, what the code does: [process_transfer] and the debt views pass the
    posted account ids on without asking whose they are.  "cash" belongs to
    user 1.  User 2 asks [process_transfer] to move 200.00 from it to the own
    "wallet" and the transfer is made; user 2 records a loan of 300.00 given
    out of "cash" and the amount is withdrawn from it; user 2 posts the
    payment of the own debt to "cash" and it is withdrawn there.  The same
    transfer asked of [accounts_dashboard], which does look the accounts up
    by owner, is refused. *)
Theorem unguarded_views_reach_foreign_accounts :
  (acc_user <$> accounts sample_store !! 1%positive) = Some 1%positive /\
  balance_of sample_store 1 = Some 50000 /\
  (snd (process_transfer 2 "1" "3" 20000 sample_store) = inr tt /\
   balance_of (fst (process_transfer 2 "1" "3" 20000 sample_store)) 1 = Some 30000 /\
   balance_of (fst (process_transfer 2 "1" "3" 20000 sample_store)) 3 = Some 21000) /\
  (snd (debt_dashboard_add_debt 2 1 1 30000 "receivable" sample_store) = inr tt /\
   balance_of (fst (debt_dashboard_add_debt 2 1 1 30000 "receivable" sample_store)) 1
     = Some 20000) /\
  (let s1 := fst (debt_dashboard_add_debt 2 1 3 30000 "payable" sample_store) in
   (debt_user <$> debts s1 !! 1%positive) = Some 2%positive /\
   snd (debt_dashboard_make_payment 2 1 1 30000 s1) = inr tt /\
   balance_of (fst (debt_dashboard_make_payment 2 1 1 30000 s1)) 1 = Some 20000) /\
  accounts_dashboard_transfer_money 2 1 3 20000 sample_store = (sample_store, inl Http404).
Proof. vm_compute. repeat split; reflexivity. Qed.

(** ** What holds when payment amounts are not negative *)

Lemma apply_payment_nonneg (d : Debt) (amount : Z) :
  0 <= amount ->
  remaining_amount (apply_payment d amount) = remaining_amount d - amount /\
  remaining_amount (apply_payment d amount) <= remaining_amount d /\
  ((is_settled d = true -> remaining_amount d = 0) ->
   amount <= remaining_amount d ->
   (is_settled (apply_payment d amount) = true <->
    remaining_amount (apply_payment d amount) = 0)).
Proof.
  intros Hpos. unfold apply_payment. cbn [with_remaining remaining_amount].
  destruct (Z.eqb_spec (remaining_amount d - amount) 0) as [Hz | Hnz];
    cbn [with_settled with_remaining remaining_amount is_settled].
  - split; [reflexivity |]. split; [lia |].
    intros _ _. split; [intros _; exact Hz | reflexivity].
  - split; [reflexivity |]. split; [lia |].
    intros Hinv Hle. split.
    + intros Hs. specialize (Hinv Hs). lia.
    + intros Hr. contradiction.
Qed.

(** An applied payment of a non-negative amount lowers the remaining amount
    by that amount, and on a debt whose settled flag was only ever set at
    zero the flag then says exactly whether nothing remains. *)
Lemma payment_step_nonneg (user debt_id account : positive) (amount : Z) (s s' : Store)
    (d : Debt) :
  debts s !! debt_id = Some d -> 0 <= amount ->
  debt_dashboard_make_payment user debt_id account amount s = (s', inr tt) ->
  exists d',
    debts s' !! debt_id = Some d' /\
    remaining_amount d' = remaining_amount d - amount /\
    0 <= remaining_amount d' <= remaining_amount d /\
    ((is_settled d = true -> remaining_amount d = 0) ->
     (is_settled d' = true <-> remaining_amount d' = 0)).
Proof.
  intros Hd Hpos H.
  destruct (make_payment_outcome user debt_id account amount s)
    as [E | (d0 & Hd0 & _ & [[_ E] | [Hle [[_ E] | (a & Ha & [(_ & _ & E) | [_ E]])]]])];
    rewrite E in H; try discriminate.
  rewrite Hd in Hd0. inversion Hd0; subst d0. inversion H; subst s'.
  exists (apply_payment d amount).
  destruct (apply_payment_nonneg d amount Hpos) as (Hr & Hmono & Hflag).
  split; [apply lookup_insert_eq |]. split; [exact Hr |].
  split; [lia |]. intros Hinv. apply Hflag; assumption.
Qed.

Lemma nonneg_saved (account : positive) (a : Account) (s : Store) :
  nonneg_balances s -> 0 <= balance a -> nonneg_balances (saved account a s).
Proof. intros Hs Ha. apply map_Forall_insert_2; assumption. Qed.

Lemma run_op_keeps_nonneg (op : ledger_op) (s : Store) :
  payment_nonneg op -> nonneg_balances s -> nonneg_balances (run_op op s).1.
Proof.
  intros Hop Hs. destruct op as [account amount | user account category title amount
                               | user debt_id account amount]; cbn [run_op].
  - unfold mbind at 1, M_bind at 1.
    destruct (accounts s !! account) as [a |] eqn:Ha.
    + rewrite (related_read accounts account a s Ha). unfold mbind at 1, M_bind at 1.
      destruct (withdraw_cases (account, a) amount s) as [[_ W] | [Hge W]]; rewrite W.
      * exact Hs.
      * apply nonneg_saved; [exact Hs | simpl in *; lia].
    + rewrite (related_missing accounts account s Ha). exact Hs.
  - destruct (add_expense user account category title amount s) as [s' [e | []]] eqn:E.
    + apply atomic_failure_restores in E. subst s'. exact Hs.
    + revert E. unfold add_expense, atomic, mbind at 1, M_bind at 1.
      destruct (get_object_cases accounts acc_user account user s)
        as [E | (a & Ha & _ & E)]; rewrite E; [discriminate |]. step.
      unfold mbind at 1, M_bind at 1.
      destruct (get_object_cases categories cat_user category user s)
        as [E' | (c & _ & _ & E')]; rewrite E'; [discriminate |]. step.
      unfold mbind at 1, M_bind at 1, Expense_save, atomic, mbind at 1, M_bind at 1.
      unfold mbind at 1, M_bind at 1. step. rewrite related_cached. step.
      unfold mbind at 1, M_bind at 1.
      destruct (withdraw_cases (account, a) amount s) as [[_ W] | [Hge W]]; rewrite W;
        [discriminate |].
      intros H. inversion H. apply (nonneg_saved account _ s Hs). simpl in *. lia.
  - cbn [payment_nonneg] in Hop.
    destruct (make_payment_outcome user debt_id account amount s)
      as [E | (d & _ & _ & [[_ E] | [_ [[_ E] | (a & Ha & [(_ & _ & E) | [Hp E]])]]])];
      rewrite E; try exact Hs.
    cbn [fst payment_recorded]. unfold nonneg_balances. cbn [accounts set_payments].
    apply (nonneg_saved account _ (set_debts _ s) Hs). cbn [with_balance balance].
    assert (Ha0 : 0 <= balance a) by exact (Hs account a Ha).
    destruct (String.eqb_spec (debt_type d) "payable") as [Hpay | Hpay]; [| lia].
    specialize (Hp Hpay). lia.
Qed.

(** Over any list of withdrawals, expense creations and debt payments whose
    payment amounts are not negative, balances that start non-negative stay
    non-negative. *)
Lemma run_ops_keeps_nonneg (ops : list ledger_op) (s : Store) :
  Forall payment_nonneg ops -> nonneg_balances s -> nonneg_balances (run_ops ops s).
Proof.
  revert s. induction ops as [| op ops IH]; intros s Hops Hs; [exact Hs |].
  inversion Hops; subst. cbn [run_ops]. apply IH; [assumption |].
  apply run_op_keeps_nonneg; assumption.
Qed.

(** * Further properties of the views *)

(** ** What each remaining view can answer *)

Lemma add_debt_outcome (user contact account : positive) (amount : Z) (ty : string)
    (s : Store) :
  let r := debt_dashboard_add_debt user contact account amount ty s in
  (exists err, r = (s, inl err)) \/
  exists a ct,
    accounts s !! account = Some a /\ contacts s !! contact = Some ct /\
    ((ty = "payable"%string /\
      r = (debt_created user contact account amount ty a (balance a + amount) s, inr tt)) \/
     (ty <> "payable"%string /\ amount <= balance a /\
      r = (debt_created user contact account amount ty a (balance a - amount) s, inr tt))).
Proof.
  intros r.
  destruct r as [s' [err | []]] eqn:E; subst r.
  { left. exists err. f_equal. exact (atomic_failure_restores _ _ _ _ E). }
  right.
  destruct (accounts s !! account) as [a |] eqn:Ha.
  2: { exfalso. revert E.
       unfold debt_dashboard_add_debt, atomic, mbind at 1, M_bind at 1.
       unfold Debt_save, atomic, mbind at 1, M_bind at 1. step.
       unfold mbind at 1, M_bind at 1. cbn [with_remaining debt_account].
       rewrite (related_missing accounts account s Ha). discriminate. }
  destruct (contacts s !! contact) as [ct |] eqn:Hct.
  2: { exfalso. revert E.
       unfold debt_dashboard_add_debt, atomic, mbind at 1, M_bind at 1.
       rewrite (Debt_save_new user contact account amount ty s a Ha).
       destruct (String.eqb ty "payable"); [| destruct (balance a <? amount)];
         cbv beta iota;
         try rewrite (check_foreign_key_missing contacts contact
                        (debt_created user contact account amount ty a _ s) Hct);
         discriminate. }
  exists a, ct. split; [reflexivity |]. split; [reflexivity |].
  destruct (String.eqb_spec ty "payable") as [Hp | Hp].
  - left. split; [exact Hp |]. rewrite <- E. subst ty.
    exact (add_debt_payable user contact account amount s a ct Ha Hct).
  - right. split; [exact Hp |].
    destruct (Z.lt_ge_cases (balance a) amount) as [Hlt | Hge].
    + rewrite (add_debt_other_short user contact account amount ty s a Ha Hp Hlt) in E.
      discriminate.
    + split; [exact Hge |]. rewrite <- E.
      exact (add_debt_other user contact account amount ty s a ct Ha Hct Hp Hge).
Qed.

Lemma add_expense_outcome (user account category : positive) (title : string) (amount : Z)
    (s : Store) :
  let r := add_expense user account category title amount s in
  r = (s, inl Http404) \/
  exists a c,
    accounts s !! account = Some a /\ acc_user a = user /\
    categories s !! category = Some c /\ cat_user c = user /\
    ((balance a < amount /\ r = (s, inl InsufficientFunds)) \/
     (amount <= balance a /\
      r = (set_expenses
             (<[new_pk (expenses s)
                := mkExpense user account (Some category) title amount true]>)
             (saved account (with_balance a (balance a - amount)) s),
           inr tt))).
Proof.
  intros r.
  destruct (accounts s !! account) as [a |] eqn:Ha.
  2: { left. subst r. unfold add_expense, atomic, mbind at 1, M_bind at 1.
       unfold get_object_or_404 at 1. unfold mbind at 1, M_bind at 1, get_store.
       rewrite Ha. reflexivity. }
  destruct (decide (acc_user a = user)) as [Hau | Hau].
  2: { left. subst r. unfold add_expense, atomic, mbind at 1, M_bind at 1.
       rewrite (get_object_foreign accounts acc_user account user a s Ha Hau). reflexivity. }
  assert (H404 : get_object_or_404 categories cat_user category user s = (s, inl Http404) ->
                 r = (s, inl Http404)).
  { intros E. subst r. unfold add_expense, atomic, mbind at 1, M_bind at 1.
    rewrite (get_object_found accounts acc_user account user a s Ha Hau). step.
    unfold mbind at 1, M_bind at 1. rewrite E. reflexivity. }
  destruct (get_object_cases categories cat_user category user s)
    as [E | (c & Hc & Hcu & _)]; [left; exact (H404 E) |].
  right. exists a, c. repeat (split; [assumption || reflexivity |]).
  destruct (Z.lt_ge_cases (balance a) amount) as [Hlt | Hge].
  - left. split; [exact Hlt |].
    exact (add_expense_short user account category title amount s a c Ha Hau Hc Hcu Hlt).
  - right. split; [exact Hge |].
    exact (add_expense_enough user account category title amount s a c Ha Hau Hc Hcu Hge).
Qed.

Lemma delete_expense_outcome (user pk : positive) (s : Store) :
  let r := delete_expense user pk s in
  r = (s, inl Http404) \/
  exists e,
    expenses s !! pk = Some e /\ exp_user e = user /\
    ((accounts s !! exp_account e = None /\ r = (s, inl DoesNotExist)) \/
     exists a,
       accounts s !! exp_account e = Some a /\
       r = (set_expenses (<[pk := deactivated e]>)
              (saved (exp_account e) (with_balance a (balance a + exp_amount e)) s),
            inr tt)).
Proof.
  intros r. subst r.
  destruct (get_object_cases expenses exp_user pk user s) as [E | (e & He & Heu & E)].
  - left. unfold delete_expense, mbind at 1, M_bind at 1. rewrite E. reflexivity.
  - right. exists e. split; [exact He |]. split; [exact Heu |].
    destruct (accounts s !! exp_account e) as [a |] eqn:Ha.
    + right. exists a. split; [reflexivity |].
      exact (delete_expense_found user pk s e a He Heu Ha).
    + left. split; [reflexivity |].
      unfold delete_expense, mbind at 1, M_bind at 1. rewrite E. step.
      unfold atomic, mbind at 1, M_bind at 1.
      rewrite (related_missing accounts (exp_account e) s Ha). reflexivity.
Qed.

Lemma income_outcome (user account category : positive) (source : string) (amount : Z)
    (s : Store) :
  let r := income_list_view user account category source amount s in
  ((source = ""%string \/ amount <= 0) /\ r = (s, inl InvalidForm)) \/
  (source <> ""%string /\ 0 < amount /\
   (r = (s, inl Http404) \/
    exists a c,
      accounts s !! account = Some a /\ acc_user a = user /\
      categories s !! category = Some c /\ cat_user c = user /\
      r = (set_incomes
             (<[new_pk (incomes s)
                := mkIncome user account (Some category) source amount true]>)
             (saved account (with_balance a (balance a + amount)) s),
           inr tt))).
Proof.
  intros r. subst r.
  destruct (String.eqb_spec source "") as [Hsrc | Hsrc].
  { left. split; [left; exact Hsrc |]. subst source. reflexivity. }
  destruct (Z.le_gt_cases amount 0) as [Hle | Hgt].
  { left. split; [right; exact Hle |].
    unfold income_list_view, atomic.
    destruct (String.eqb_spec source ""); [contradiction |].
    destruct (Z.gtb_spec amount 0); [lia | reflexivity]. }
  right. split; [exact Hsrc |]. split; [lia |].
  assert (Hview : income_list_view user account category source amount s =
            atomic (
              category_obj ← get_object_or_404 categories cat_user category user;
              account_obj ← get_object_or_404 accounts acc_user account user;
              _ ← Income_save None
                    (mkIncome user account_obj.1 (Some category_obj.1) source amount true)
                    (Some account_obj.2);
              mret tt) s).
  { unfold income_list_view, atomic.
    destruct (String.eqb_spec source ""); [contradiction |].
    destruct (Z.gtb_spec amount 0); [reflexivity | lia]. }
  destruct (get_object_cases categories cat_user category user s)
    as [E | (c & Hc & Hcu & E)].
  { left. rewrite Hview. unfold atomic, mbind at 1, M_bind at 1. rewrite E. reflexivity. }
  destruct (get_object_cases accounts acc_user account user s)
    as [E' | (a & Ha & Hau & E')].
  { left. rewrite Hview. unfold atomic, mbind at 1, M_bind at 1. rewrite E. step.
    unfold mbind at 1, M_bind at 1. rewrite E'. reflexivity. }
  right. exists a, c. repeat (split; [assumption || reflexivity |]).
  apply (income_list_view_valid user account category source amount s a c);
    assumption || lia.
Qed.

Lemma edit_expense_outcome (user pk category : positive) (title : string) (amount : Z)
    (s : Store) :
  let r := edit_expense user pk title amount category s in
  (exists err, r = (s, inl err)) \/
  exists e c,
    expenses s !! pk = Some e /\ exp_user e = user /\
    categories s !! category = Some c /\ cat_user c = user /\
    let row := edited e category title (DecimalField_of_float 10 (float_of amount)) in
    (r = (set_expenses (<[pk := row]>) s, inr tt) \/
     exists a b,
       accounts s !! exp_account e = Some a /\ (0 <= balance a -> 0 <= b) /\
       r = (set_expenses (<[pk := row]>) (saved (exp_account e) (with_balance a b) s),
            inr tt)).
Proof.
  intros r.
  destruct r as [s' [err | []]] eqn:E; subst r.
  { left. exists err. f_equal. exact (edit_expense_failure_restores _ _ _ _ _ _ _ _ E). }
  right.
  destruct (get_object_cases expenses exp_user pk user s) as [E1 | (e & He & Heu & E1)].
  { exfalso. revert E. unfold edit_expense, mbind at 1, M_bind at 1. rewrite E1.
    discriminate. }
  destruct (get_object_cases categories cat_user category user s)
    as [E2 | (c & Hc & Hcu & _)].
  { exfalso. revert E. unfold edit_expense, mbind at 1, M_bind at 1. rewrite E1. step.
    unfold atomic, mbind at 1, M_bind at 1. cbv zeta.
    assert (E2' : forall k acc,
              get_object_or_404 categories cat_user category user (saved k acc s)
              = (saved k acc s, inl Http404)).
    { intros k acc. revert E2. unfold get_object_or_404, mbind, M_bind, get_store.
      cbn [categories saved set_accounts].
      destruct (categories s !! category) as [c |]; [| reflexivity].
      destruct (decide (cat_user c = user)); [discriminate | reflexivity]. }
    destruct (Qltb (float_of (exp_amount e)) (float_of amount)).
    - unfold mbind at 1, M_bind at 1.
      destruct (related accounts (exp_account e) None s) as [s1 [e1 | acc]] eqn:R;
        [discriminate |].
      unfold related, mbind, M_bind, get_store in R.
      destruct (accounts s !! exp_account e); inversion R; subst s1 acc. step.
      destruct (Qltb (Decimal_of (balance a))
                  (Decimal_str (float_sub (float_of amount) (float_of (exp_amount e)))))
        eqn:Hcov.
      + rewrite (withdraw_float_short (exp_account e, a) _ s Hcov). discriminate.
      + rewrite (withdraw_float_enough (exp_account e, a) _ s Hcov). step.
        unfold mbind at 1, M_bind at 1.
        rewrite (E2' (exp_account e)). discriminate.
    - destruct (Qltb (float_of amount) (float_of (exp_amount e))).
      + unfold mbind at 1, M_bind at 1.
        destruct (related accounts (exp_account e) None s) as [s1 [e1 | acc]] eqn:R;
          [discriminate |].
        unfold related, mbind, M_bind, get_store in R.
        destruct (accounts s !! exp_account e); inversion R; subst s1 acc. step.
        rewrite deposit_float_eq. step. unfold mbind at 1, M_bind at 1.
        rewrite (E2' (exp_account e)). discriminate.
      + unfold mret at 1, M_ret at 1. unfold mbind at 1, M_bind at 1.
        rewrite E2. discriminate. }
  exists e, c. repeat (split; [assumption |]). cbv zeta.
  destruct (Qltb (float_of (exp_amount e)) (float_of amount)) eqn:Hgt;
    [| destruct (Qltb (float_of amount) (float_of (exp_amount e))) eqn:Hlt].
  - right.
    destruct (accounts s !! exp_account e) as [a |] eqn:Ha.
    2: { exfalso. revert E. unfold edit_expense, mbind at 1, M_bind at 1. rewrite E1. step.
         unfold atomic, mbind at 1, M_bind at 1. cbv zeta. rewrite Hgt.
         unfold mbind at 1, M_bind at 1.
         rewrite (related_missing accounts (exp_account e) s Ha). discriminate. }
    destruct (Qltb (Decimal_of (balance a))
                (Decimal_str (float_sub (float_of amount) (float_of (exp_amount e)))))
      eqn:Hcov.
    { rewrite (edit_expense_raise_short user pk category title amount s e a He Heu Ha
                 Hgt Hcov) in E. discriminate. }
    eexists a, _. split; [reflexivity |]. split.
    2: { rewrite <- E.
         exact (edit_expense_raise_enough user pk category title amount s e a c
                  He Heu Ha Hc Hcu Hgt Hcov). }
    intros _. apply quantize_nonneg. apply Qltb_false in Hcov. lra.
  - right.
    destruct (accounts s !! exp_account e) as [a |] eqn:Ha.
    2: { exfalso. revert E. unfold edit_expense, mbind at 1, M_bind at 1. rewrite E1. step.
         unfold atomic, mbind at 1, M_bind at 1. cbv zeta. rewrite Hgt, Hlt.
         unfold mbind at 1, M_bind at 1.
         rewrite (related_missing accounts (exp_account e) s Ha). discriminate. }
    eexists a, _. split; [reflexivity |]. split.
    2: { rewrite <- E.
         exact (edit_expense_lower user pk category title amount s e a c
                  He Heu Ha Hc Hcu Hgt Hlt). }
    intros Hb. apply quantize_nonneg.
    pose proof (Decimal_of_nonneg (balance a) Hb) as H0.
    assert (H1 : (0 <= Decimal_str (float_sub (float_of (exp_amount e)) (float_of amount)))%Q).
    { apply Decimal_str_nonneg, float_sub_nonneg, Qlt_le_weak, Qltb_true, Hlt. }
    lra.
  - left. rewrite <- E.
    exact (edit_expense_same user pk category title amount s e c He Heu Hc Hcu Hgt Hlt).
Qed.

(** ** All or nothing, and what no request touches *)

Lemma handle_failure_restores (r : request) (s s' : Store) (err : error) :
  handle r s = (s', inl err) -> s' = s.
Proof.
  destruct r as [user from_account to_account amount | user from_id to_id amount
                | user contact account amount ty | user debt_id account amount
                | user account category title amount | user pk title amount category
                | user pk | user account category source amount];
    cbn [handle]; intros H.
  - exact (atomic_failure_restores _ _ _ _ H).
  - destruct (process_transfer_outcome user from_id to_id amount s)
      as [[err0 E] | (fa & ta & src & dst & _ & _ & _ & _ & _ & _ & E)];
      rewrite E in H; inversion H; reflexivity.
  - exact (atomic_failure_restores _ _ _ _ H).
  - exact (atomic_failure_restores _ _ _ _ H).
  - exact (atomic_failure_restores _ _ _ _ H).
  - exact (edit_expense_failure_restores _ _ _ _ _ _ _ _ H).
  - destruct (delete_expense_outcome user pk s)
      as [E | (e & _ & _ & [[_ E] | (a & _ & E)])];
      rewrite E in H; inversion H; reflexivity.
  - exact (atomic_failure_restores _ _ _ _ H).
Qed.

(** X1: a request that fails, with whatever error, leaves the whole store as
    it was. *)
Theorem failed_request_changes_nothing (r : request) (s s' : Store) (err : error) :
  handle r s = (s', inl err) -> s' = s.
Proof.
  destruct r as [user from_account to_account amount | user from_id to_id amount
                | user contact account amount ty | user debt_id account amount
                | user account category title amount | user pk title amount category
                | user pk | user account category source amount];
    cbn [handle]; intros H.
  - exact (atomic_failure_restores _ _ _ _ H).
  - destruct (process_transfer_outcome user from_id to_id amount s)
      as [[err0 E] | (fa & ta & src & dst & _ & _ & _ & _ & _ & _ & E)];
      rewrite E in H; inversion H; reflexivity.
  - exact (atomic_failure_restores _ _ _ _ H).
  - exact (atomic_failure_restores _ _ _ _ H).
  - exact (atomic_failure_restores _ _ _ _ H).
  - exact (edit_expense_failure_restores _ _ _ _ _ _ _ _ H).
  - destruct (delete_expense_outcome user pk s)
      as [E | (e & _ & _ & [[_ E] | (a & _ & E)])];
      rewrite E in H; inversion H; reflexivity.
  - exact (atomic_failure_restores _ _ _ _ H).
Qed.

Lemma failed_request_changes_nothing_witness :
  handle (MakePayment 1 1 2 70000)
    (handle_all [AddDebt 1 1 1 60000 "payable"; MakePayment 1 1 1 10000] sample_store)
  = (handle_all [AddDebt 1 1 1 60000 "payable"; MakePayment 1 1 1 10000] sample_store,
     inl OverPayment) /\
  handle (MakePayment 1 1 2 30000)
    (handle_all [AddDebt 1 1 1 60000 "payable"; MakePayment 1 1 1 10000] sample_store)
  = (handle_all [AddDebt 1 1 1 60000 "payable"; MakePayment 1 1 1 10000] sample_store,
     inl InsufficientFunds).
Proof.
  split.
  - assert (H : snd (handle (MakePayment 1 1 2 70000)
                       (handle_all [AddDebt 1 1 1 60000 "payable"; MakePayment 1 1 1 10000]
                          sample_store)) = inl OverPayment)
      by (vm_compute; reflexivity).
    destruct (handle _ _) as [s' res] eqn:E. cbn [snd] in H. subst res.
    rewrite (failed_request_changes_nothing _ _ _ _ E). reflexivity.
  - assert (H : snd (handle (MakePayment 1 1 2 30000)
                       (handle_all [AddDebt 1 1 1 60000 "payable"; MakePayment 1 1 1 10000]
                          sample_store)) = inl InsufficientFunds)
      by (vm_compute; reflexivity).
    destruct (handle _ _) as [s' res] eqn:E. cbn [snd] in H. subst res.
    rewrite (failed_request_changes_nothing _ _ _ _ E). reflexivity.
Defined.

Lemma same_accounts_refl (s : Store) : same_accounts s s.
Proof.
  intros k. destruct (accounts s !! k); [| exact I]. repeat split.
Qed.

Lemma same_accounts_trans (s1 s2 s3 : Store) :
  same_accounts s1 s2 -> same_accounts s2 s3 -> same_accounts s1 s3.
Proof.
  intros H12 H23 k. specialize (H12 k). specialize (H23 k).
  destruct (accounts s1 !! k), (accounts s2 !! k), (accounts s3 !! k);
    try contradiction; try exact I.
  destruct H12 as (? & ? & ?), H23 as (? & ? & ?). repeat split; congruence.
Qed.

Lemma same_accounts_step (s s' : Store) (k : positive) (a : Account) (b : Z) :
  accounts s !! k = Some a ->
  accounts s' = <[k := with_balance a b]> (accounts s) ->
  same_accounts s s'.
Proof.
  intros Ha Hs' j. rewrite Hs'. destruct (decide (k = j)) as [<- | Hne].
  - rewrite lookup_insert_eq, Ha. repeat split.
  - rewrite lookup_insert_ne by exact Hne.
    destruct (accounts s !! j); [| exact I]. repeat split.
Qed.

Lemma handle_same_accounts (r : request) (s : Store) : same_accounts s (handle r s).1.
Proof.
  destruct (handle r s) as [s' [err | []]] eqn:H; cbn [fst].
  { rewrite (handle_failure_restores r s s' err H). apply same_accounts_refl. }
  assert (Htransfer : forall user from_account to_account amount src dst,
            accounts s !! from_account = Some src ->
            accounts (saved from_account (with_balance src (balance src - amount)) s)
              !! to_account = Some dst ->
            same_accounts s (transferred user from_account to_account amount src dst s)).
  { intros user from_account to_account amount src dst Hs Hd.
    apply (same_accounts_trans s
             (saved from_account (with_balance src (balance src - amount)) s)).
    - apply (same_accounts_step s _ from_account src (balance src - amount) Hs). reflexivity.
    - apply (same_accounts_step _ _ to_account dst (balance dst + amount)); [| reflexivity].
      exact Hd. }
  destruct r as [user from_account to_account amount | user from_id to_id amount
                | user contact account amount ty | user debt_id account amount
                | user account category title amount | user pk title amount category
                | user pk | user account category source amount];
    cbn [handle] in H.
  - destruct (transfer_money_outcome user from_account to_account amount s)
      as [E | [[_ E] | (src & dst & Hs & _ & Hd & _ & Hne & [[_ E] | [_ E]])]];
      rewrite E in H; inversion H. apply Htransfer; [exact Hs |].
    cbn [accounts saved set_accounts]. rewrite lookup_insert_ne by exact Hne. exact Hd.
  - destruct (process_transfer_outcome user from_id to_id amount s)
      as [[err0 E] | (fa & ta & src & dst & _ & _ & _ & Hs & _ & Hd & E)];
      rewrite E in H; inversion H. apply Htransfer; assumption.
  - destruct (add_debt_outcome user contact account amount ty s)
      as [[err0 E] | (a & ct & Ha & _ & [[_ E] | (_ & _ & E)])];
      rewrite E in H; inversion H;
      eapply (same_accounts_step s _ account a); [exact Ha | reflexivity
                                                  | exact Ha | reflexivity].
  - destruct (make_payment_outcome user debt_id account amount s)
      as [E | (d & _ & _ & [[_ E] | [_ [[_ E] | (a & Ha & [(_ & _ & E) | [_ E]])]]])];
      rewrite E in H; inversion H.
    eapply (same_accounts_step s _ account a); [exact Ha | reflexivity].
  - destruct (add_expense_outcome user account category title amount s)
      as [E | (a & c & Ha & _ & _ & _ & [[_ E] | [_ E]])];
      rewrite E in H; inversion H.
    eapply (same_accounts_step s _ account a); [exact Ha | reflexivity].
  - destruct (edit_expense_outcome user pk category title amount s)
      as [[err E] | (e & c & _ & _ & _ & _ & [E | (a & b & Ha & _ & E)])];
      rewrite E in H; inversion H.
    + exact (same_accounts_refl s).
    + eapply (same_accounts_step s _ (exp_account e) a); [exact Ha | reflexivity].
  - destruct (delete_expense_outcome user pk s)
      as [E | (e & _ & _ & [[_ E] | (a & Ha & E)])];
      rewrite E in H; inversion H.
    eapply (same_accounts_step s _ (exp_account e) a); [exact Ha | reflexivity].
  - destruct (income_outcome user account category source amount s)
      as [[_ E] | (_ & _ & [E | (a & c & Ha & _ & _ & _ & E)])];
      rewrite E in H; inversion H.
    eapply (same_accounts_step s _ account a); [exact Ha | reflexivity].
Qed.

Lemma handle_all_same_accounts (rs : list request) (s : Store) :
  same_accounts s (handle_all rs s).
Proof.
  revert s. induction rs as [| r rs IH]; intros s; cbn [handle_all].
  - apply same_accounts_refl.
  - exact (same_accounts_trans _ _ _ (handle_same_accounts r s) (IH _)).
Qed.

(** X2: over any sequence of the requests that move money (transfers, debts,
    payments, expenses, incomes), no account appears or disappears and no
    account changes its owner, its name or its active flag: only balances
    move. *)
Theorem requests_keep_account_holders (rs : list request) (s : Store) :
  same_accounts s (handle_all rs s).
Proof.
  revert s. induction rs as [| r rs IH]; intros s; cbn [handle_all].
  - apply same_accounts_refl.
  - exact (same_accounts_trans _ _ _ (handle_same_accounts r s) (IH _)).
Qed.

(** ** Round trips *)





Lemma new_pk_fresh {A} (m : gmap positive A) : m !! new_pk m = None.
Proof. apply not_elem_of_dom. unfold new_pk. apply is_fresh. Qed.




Lemma make_payment_short (user debt_id account : positive) (amount : Z) (s : Store)
    (d : Debt) (a : Account) :
  debts s !! debt_id = Some d -> debt_user d = user ->
  amount <= remaining_amount d ->
  accounts s !! account = Some a ->
  debt_type d = "payable"%string -> balance a < amount ->
  debt_dashboard_make_payment user debt_id account amount s = (s, inl InsufficientFunds).
Proof.
  intros Hd Hu Hle Ha Hp Hlt.
  unfold debt_dashboard_make_payment, atomic, mbind at 1, M_bind at 1.
  rewrite (get_object_found debts debt_user debt_id user d s Hd Hu). step.
  unfold mbind at 1, M_bind at 1.
  rewrite DebtPayment_save_accepted by exact Hle.
  cbn [dp_debt dp_account amount_paid].
  unfold mbind at 1, M_bind at 1.
  rewrite (related_read accounts account a (set_debts _ s) Ha).
  unfold mbind at 1, M_bind at 1. rewrite Hp.
  change (String.eqb "payable" "payable") with true. cbv iota.
  rewrite (withdraw_short (account, a) amount _ Hlt). reflexivity.
Qed.








(** ** Debts over any sequence of requests *)

Lemma debt_shrinks_refl (d : Debt) : debt_shrinks d d.
Proof. unfold debt_shrinks. repeat split; auto; lia. Qed.

Lemma debt_shrinks_trans (d1 d2 d3 : Debt) :
  debt_shrinks d1 d2 -> debt_shrinks d2 d3 -> debt_shrinks d1 d3.
Proof.
  unfold debt_shrinks. intros (? & ? & ? & ? & ? & ?) (? & ? & ? & ? & ? & ?).
  repeat split; try congruence; try lia; auto.
Qed.

Lemma apply_payment_shrinks (d : Debt) (amount : Z) :
  0 <= amount <= remaining_amount d -> settled_at_zero d ->
  debt_shrinks d (apply_payment d amount) /\ settled_at_zero (apply_payment d amount).
Proof.
  intros [Hpos Hle] Hinv. unfold debt_shrinks, settled_at_zero, apply_payment in *.
  cbn [with_remaining remaining_amount].
  destruct (Z.eqb_spec (remaining_amount d - amount) 0) as [Hz | Hnz];
    cbn [with_settled with_remaining remaining_amount is_settled debt_user debt_type
         initial_amount].
  - repeat split; auto; lia.
  - repeat split; auto; try lia. intros Hs. specialize (Hinv Hs). lia.
Qed.

Lemma handle_debt_step (r : request) (s : Store) (debt_id : positive) (d : Debt) :
  request_payment_nonneg r ->
  debts s !! debt_id = Some d -> settled_at_zero d ->
  exists d',
    debts (handle r s).1 !! debt_id = Some d' /\ debt_shrinks d d' /\ settled_at_zero d'.
Proof.
  intros Hr Hd Hinv.
  assert (Hsame : forall s', debts s' = debts s ->
            exists d', debts s' !! debt_id = Some d' /\ debt_shrinks d d' /\
                       settled_at_zero d').
  { intros s' ->. exists d. split; [exact Hd |]. split; [apply debt_shrinks_refl | exact Hinv]. }
  destruct (handle r s) as [s' [err | []]] eqn:H; cbn [fst].
  { rewrite (handle_failure_restores r s s' err H). apply Hsame. reflexivity. }
  destruct r as [user from_account to_account amount | user from_id to_id amount
                | user contact account amount ty | user debt_id' account amount
                | user account category title amount | user pk title amount category
                | user pk | user account category source amount];
    cbn [handle] in H.
  - destruct (transfer_money_outcome user from_account to_account amount s)
      as [E | [[_ E] | (src & dst & _ & _ & _ & _ & _ & [[_ E] | [_ E]])]];
      rewrite E in H; inversion H. apply Hsame. reflexivity.
  - destruct (process_transfer_outcome user from_id to_id amount s)
      as [[err0 E] | (fa & ta & src & dst & _ & _ & _ & _ & _ & _ & E)];
      rewrite E in H; inversion H. apply Hsame. reflexivity.
  - assert (Hnew : forall a b,
              exists d', debts (debt_created user contact account amount ty a b s) !! debt_id
                         = Some d' /\ debt_shrinks d d' /\ settled_at_zero d').
    { intros a b. exists d. split; [| split; [apply debt_shrinks_refl | exact Hinv]].
      cbn [debts debt_created set_debts saved set_accounts].
      rewrite lookup_insert_ne; [exact Hd |].
      intros Heq. pose proof (new_pk_fresh (debts s)) as Hf. rewrite Heq in Hf. congruence. }
    destruct (add_debt_outcome user contact account amount ty s)
      as [[err0 E] | (a & ct & _ & _ & [[_ E] | (_ & _ & E)])];
      rewrite E in H; inversion H; apply Hnew.
  - cbn [request_payment_nonneg] in Hr.
    destruct (make_payment_outcome user debt_id' account amount s)
      as [E | (d0 & Hd0 & _ & [[_ E] | [Hle [[_ E] | (a & _ & [(_ & _ & E) | [_ E]])]]])];
      rewrite E in H; inversion H.
    cbn [debts payment_recorded set_payments saved set_accounts set_debts].
    destruct (decide (debt_id' = debt_id)) as [-> | Hne].
    + rewrite Hd in Hd0. inversion Hd0; subst d0.
      rewrite lookup_insert_eq. exists (apply_payment d amount). split; [reflexivity |].
      apply apply_payment_shrinks; [lia | exact Hinv].
    + rewrite lookup_insert_ne by exact Hne. apply Hsame. reflexivity.
  - destruct (add_expense_outcome user account category title amount s)
      as [E | (a & c & _ & _ & _ & _ & [[_ E] | [_ E]])];
      rewrite E in H; inversion H. apply Hsame. reflexivity.
  - destruct (edit_expense_outcome user pk category title amount s)
      as [[err E] | (e & c & _ & _ & _ & _ & [E | (a & b & _ & _ & E)])];
      rewrite E in H; inversion H; apply Hsame; reflexivity.
  - destruct (delete_expense_outcome user pk s)
      as [E | (e & _ & _ & [[_ E] | (a & _ & E)])];
      rewrite E in H; inversion H. apply Hsame. reflexivity.
  - destruct (income_outcome user account category source amount s)
      as [[_ E] | (_ & _ & [E | (a & c & _ & _ & _ & _ & E)])];
      rewrite E in H; inversion H. apply Hsame. reflexivity.
Qed.

(** X7: over any sequence of requests whose payments are not negative, a debt
    that is consistently flagged stays in the table with its owner, direction
    and initial amount, its remaining amount never goes up and never drops
    below zero, it is flagged settled only with nothing remaining, and once
    settled it stays settled. *)
Theorem debts_only_shrink (rs : list request) (s : Store) (debt_id : positive) (d : Debt) :
  Forall request_payment_nonneg rs ->
  debts s !! debt_id = Some d -> settled_at_zero d ->
  exists d',
    debts (handle_all rs s) !! debt_id = Some d' /\
    debt_shrinks d d' /\ settled_at_zero d'.
Proof.
  revert s d. induction rs as [| r rs IH]; intros s d Hrs Hd Hinv; cbn [handle_all].
  - exists d. split; [exact Hd |]. split; [apply debt_shrinks_refl | exact Hinv].
  - inversion Hrs as [| r0 rs0 Hr Hrest]; subst.
    destruct (handle_debt_step r s debt_id d Hr Hd Hinv) as (d1 & Hd1 & Hs1 & Hinv1).
    destruct (IH _ d1 Hrest Hd1 Hinv1) as (d' & Hd' & Hs' & Hinv').
    exists d'. split; [exact Hd' |]. split; [| exact Hinv'].
    exact (debt_shrinks_trans d d1 d' Hs1 Hs').
Qed.

Lemma debts_only_shrink_witness :
  exists d',
    debts (handle_all [MakePayment 1 1 2 50000; AddExpense 1 1 1 "rice" 1000;
                       MakePayment 1 1 2 20000; MakePayment 1 1 2 10000]
             partly_paid_store) !! 1%positive = Some d' /\
    debt_shrinks (mkDebt 1 1 100000 60000 "payable" 2 false) d' /\
    settled_at_zero d'.
Proof.
  apply (debts_only_shrink _ partly_paid_store 1 (mkDebt 1 1 100000 60000 "payable" 2 false)).
  - repeat constructor; simpl; lia.
  - vm_compute. reflexivity.
  - intros H. discriminate H.
Defined.

(** ** Balances over any sequence of requests *)

Lemma handle_keeps_nonneg (r : request) (s : Store) :
  request_amount_nonneg r -> ledger_nonneg s -> ledger_nonneg (handle r s).1.
Proof.
  intros Hr [Hb He].
  destruct (handle r s) as [s' [err | []]] eqn:H; cbn [fst].
  { rewrite (handle_failure_restores r s s' err H). split; assumption. }
  assert (Htransfer : forall user from_account to_account amount src dst,
            0 <= amount -> amount <= balance src ->
            accounts s !! from_account = Some src ->
            accounts (saved from_account (with_balance src (balance src - amount)) s)
              !! to_account = Some dst ->
            ledger_nonneg (transferred user from_account to_account amount src dst s)).
  { intros user from_account to_account amount src dst Hpos Hle Hs Hd.
    split; [| exact He].
    assert (Hb1 : nonneg_balances
                    (saved from_account (with_balance src (balance src - amount)) s))
      by (apply nonneg_saved; [exact Hb | cbn; lia]).
    apply (nonneg_saved to_account _ _ Hb1).
    pose proof (Hb1 to_account dst Hd) as Hd0. cbn in Hd0 |- *. lia. }
  destruct r as [user from_account to_account amount | user from_id to_id amount
                | user contact account amount ty | user debt_id account amount
                | user account category title amount | user pk title amount category
                | user pk | user account category source amount];
    cbn [handle] in H; cbn [request_amount_nonneg] in Hr.
  - destruct (transfer_money_outcome user from_account to_account amount s)
      as [E | [[_ E] | (src & dst & Hs & _ & Hd & _ & Hne & [[_ E] | [Hle E]])]];
      rewrite E in H; inversion H. apply Htransfer; try assumption.
    cbn [accounts saved set_accounts]. rewrite lookup_insert_ne by exact Hne. exact Hd.
  - destruct (process_transfer_outcome user from_id to_id amount s)
      as [[err0 E] | (fa & ta & src & dst & _ & _ & _ & Hs & Hle & Hd & E)];
      rewrite E in H; inversion H. apply Htransfer; assumption.
  - destruct (add_debt_outcome user contact account amount ty s)
      as [[err0 E] | (a & ct & Ha & _ & [[_ E] | (_ & Hle & E)])];
      rewrite E in H; inversion H; (split; [| exact He]);
      apply (nonneg_saved account _ s Hb); pose proof (Hb account a Ha) as Ha0;
      cbn in Ha0 |- *; lia.
  - destruct (make_payment_outcome user debt_id account amount s)
      as [E | (d & _ & _ & [[_ E] | [_ [[_ E] | (a & Ha & [(_ & _ & E) | [Hp E]])]]])];
      rewrite E in H; inversion H. split; [| exact He].
    apply (nonneg_saved account _ (set_debts _ s) Hb). cbn [with_balance balance].
    pose proof (Hb account a Ha) as Ha0. cbn in Ha0.
    destruct (String.eqb_spec (debt_type d) "payable") as [Hpay | Hpay]; [| lia].
    specialize (Hp Hpay). lia.
  - destruct (add_expense_outcome user account category title amount s)
      as [E | (a & c & Ha & _ & _ & _ & [[_ E] | [Hle E]])];
      rewrite E in H; inversion H. split.
    + apply (nonneg_saved account _ s Hb). cbn. lia.
    + apply map_Forall_insert_2; [cbn; exact Hr | exact He].
  - pose proof (DecimalField_of_float_nonneg 10 amount Hr) as Hrow.
    destruct (edit_expense_outcome user pk category title amount s)
      as [[err E] | (e & c & _ & _ & _ & _ & [E | (a & b & Ha & Hcov & E)])];
      rewrite E in H; inversion H.
    + split; [exact Hb |]. apply map_Forall_insert_2; [exact Hrow | exact He].
    + split; [| apply map_Forall_insert_2; [exact Hrow | exact He]].
      apply (nonneg_saved (exp_account e) _ s Hb). cbn [with_balance balance].
      apply Hcov. exact (Hb _ a Ha).
  - destruct (delete_expense_outcome user pk s)
      as [E | (e & Hex & _ & [[_ E] | (a & Ha & E)])];
      rewrite E in H; inversion H.
    pose proof (He pk e Hex) as He0. cbn in He0. split.
    + apply (nonneg_saved (exp_account e) _ s Hb). cbn [with_balance balance].
      pose proof (Hb _ a Ha) as Ha0. cbn in Ha0. lia.
    + apply map_Forall_insert_2; [cbn; exact He0 | exact He].
  - destruct (income_outcome user account category source amount s)
      as [[_ E] | (_ & _ & [E | (a & c & Ha & _ & _ & _ & E)])];
      rewrite E in H; inversion H. split; [| exact He].
    apply (nonneg_saved account _ s Hb). cbn [with_balance balance].
    pose proof (Hb _ a Ha) as Ha0. cbn in Ha0. lia.
Qed.

(** X8: when no request carries a negative amount, a store without overdrawn
    accounts and without negative expense amounts stays so over any sequence
    of requests of any kind. *)
Theorem requests_keep_ledger_nonneg (rs : list request) (s : Store) :
  Forall request_amount_nonneg rs -> ledger_nonneg s -> ledger_nonneg (handle_all rs s).
Proof.
  revert s. induction rs as [| r rs IH]; intros s Hrs Hs; cbn [handle_all]; [exact Hs |].
  inversion Hrs; subst. apply IH; [assumption |].
  apply handle_keeps_nonneg; assumption.
Qed.

Lemma sample_store_nonneg : ledger_nonneg sample_store.
Proof.
  split.
  - unfold nonneg_balances, sample_store. cbn [accounts].
    repeat (apply map_Forall_insert_2; [cbn; lia |]). apply map_Forall_empty.
  - apply map_Forall_empty.
Qed.

Lemma requests_keep_ledger_nonneg_witness :
  ledger_nonneg
    (handle_all [AddExpense 1 1 1 "rice" 60000; TransferMoney 1 1 2 20000;
                 AddDebt 1 1 2 10000 "receivable"; MakePayment 1 1 1 4000;
                 DeleteExpense 1 1; EditExpense 1 1 "rice" 0 1]
       sample_store).
Proof.
  apply requests_keep_ledger_nonneg; [| exact sample_store_nonneg].
  repeat constructor; simpl; lia.
Defined.

(** ** Edge cases of the debt and transfer views *)



(** X10: a payment on a payable debt that the paying account cannot cover is
    refused with [InsufficientFunds], and the store is as before: the debt
    keeps its remaining amount and no payment row is written, although
    [DebtPayment.save] saves the reduced debt before it withdraws. *)
Theorem uncovered_payment_keeps_debt (user debt_id account : positive) (amount : Z)
    (s : Store) (d : Debt) (a : Account) :
  debts s !! debt_id = Some d -> debt_user d = user ->
  debt_type d = "payable"%string ->
  amount <= remaining_amount d ->
  accounts s !! account = Some a -> balance a < amount ->
  debt_dashboard_make_payment user debt_id account amount s = (s, inl InsufficientFunds) /\
  (account ← related accounts account None;
   withdraw account amount)
    (set_debts (<[debt_id := apply_payment d amount]>) s)
  = (set_debts (<[debt_id := apply_payment d amount]>) s, inl InsufficientFunds).
Proof.
  intros Hd Hu Hp Hle Ha Hlt. split.
  - exact (make_payment_short user debt_id account amount s d a Hd Hu Hle Ha Hp Hlt).
  - unfold mbind, M_bind.
    rewrite (related_read accounts account a (set_debts _ s) Ha).
    rewrite (withdraw_short (account, a) amount _ Hlt). reflexivity.
Qed.

Lemma uncovered_payment_keeps_debt_witness :
  debt_dashboard_make_payment 1 1 1 50000
    (handle_all [AddDebt 1 1 2 60000 "payable"; AddExpense 1 1 1 "rent" 45000] sample_store)
  = (handle_all [AddDebt 1 1 2 60000 "payable"; AddExpense 1 1 1 "rent" 45000] sample_store,
     inl InsufficientFunds).
Proof.
  apply (uncovered_payment_keeps_debt 1 1 1 50000 _
           (mkDebt 1 1 60000 60000 "payable" 2 false) (mkAccount 1 "cash" 5000 true));
    [vm_compute; reflexivity | reflexivity | reflexivity | simpl; lia
    | vm_compute; reflexivity | simpl; lia].
Defined.





(** ** The figures of the dashboards *)

Lemma sum_where_insert_new {A} (keep : A -> bool) (field : A -> Z)
    (table : gmap positive A) (k : positive) (row : A) :
  table !! k = None ->
  sum_where keep field (<[k := row]> table)
    = share keep field row + sum_where keep field table.
Proof.
  intros Hk. unfold sum_where, share.
  rewrite map_fold_insert_L; [destruct (keep row); lia | | exact Hk].
  intros j1 j2 z1 z2 y _ _ _. destruct (keep z1), (keep z2); lia.
Qed.



Lemma sum_where_empty {A} (keep : A -> bool) (field : A -> Z) :
  sum_where keep field (∅ : gmap positive A) = 0.
Proof. apply map_fold_empty. Qed.











(** X17: the two net worth figures differ by the money in the deactivated
    accounts of the user: the expense page counts it, the accounts page does
    not.  They agree when the user has no deactivated account. *)
Theorem net_worth_figures_differ_by_inactive (user : positive) (s : Store) :
  expense_list_net_worth user s - net_worth user s
    = sum_where (fun a => bool_decide (acc_user a = user) && negb (acc_is_active a))
                balance (accounts s) /\
  (map_Forall (fun _ a => acc_user a = user -> acc_is_active a = true) (accounts s) ->
   expense_list_net_worth user s = net_worth user s).
Proof.
  assert (Hsplit : forall m : gmap positive Account,
            sum_where (fun a => bool_decide (acc_user a = user)) balance m
            = sum_where (fun a => bool_decide (acc_user a = user) && acc_is_active a)
                        balance m
              + sum_where (fun a => bool_decide (acc_user a = user)
                                    && negb (acc_is_active a)) balance m).
  { intros m. induction m as [| k a m Hk IH] using map_ind.
    - rewrite !sum_where_empty. reflexivity.
    - rewrite !sum_where_insert_new by exact Hk. rewrite IH. unfold share.
      destruct (bool_decide (acc_user a = user)), (acc_is_active a); cbn; lia. }
  assert (Hnone : forall m : gmap positive Account,
            map_Forall (fun _ a => acc_user a = user -> acc_is_active a = true) m ->
            sum_where (fun a => bool_decide (acc_user a = user)
                                && negb (acc_is_active a)) balance m = 0).
  { intros m. induction m as [| k a m Hk IH] using map_ind; intros Hall.
    - apply sum_where_empty.
    - rewrite sum_where_insert_new by exact Hk.
      apply map_Forall_insert in Hall; [| exact Hk]. destruct Hall as [Ha Hm].
      rewrite (IH Hm). unfold share.
      destruct (bool_decide_reflect (acc_user a = user)) as [Hu | Hu]; cbn; [| lia].
      rewrite (Ha Hu). cbn. lia. }
  unfold expense_list_net_worth, net_worth, total_cash, total_balance.
  split.
  - rewrite (Hsplit (accounts s)). lia.
  - intros Hall. rewrite (Hsplit (accounts s)), (Hnone _ Hall). lia.
Qed.

Lemma net_worth_figures_differ_by_inactive_witness :
  expense_list_net_worth 1 sample_store = net_worth 1 sample_store.
Proof.
  apply (net_worth_figures_differ_by_inactive 1 sample_store).
  unfold sample_store. cbn [accounts].
  repeat (apply map_Forall_insert_2; [intros _; reflexivity |]). apply map_Forall_empty.
Defined.

(** ** Deactivating an account *)



(** ** Categories in use *)

Lemma refs_after_entry (s s' : Store) :
  category_refs_ok s -> categories s' = categories s ->
  ((exists k e, expenses s' = <[k := e]> (expenses s) /\
                (forall c, exp_category e = Some c -> is_Some (categories s !! c))) \/
   expenses s' = expenses s) ->
  ((exists k i, incomes s' = <[k := i]> (incomes s) /\
                (forall c, inc_category i = Some c -> is_Some (categories s !! c))) \/
   incomes s' = incomes s) ->
  category_refs_ok s'.
Proof.
  intros [He Hi] Hcat Hexp Hinc. split.
  - intros k e c Hk Hc. rewrite Hcat.
    destruct Hexp as [(k0 & e0 & Hs' & Hnew) | Hs']; rewrite Hs' in Hk.
    + destruct (decide (k0 = k)) as [-> | Hne].
      * rewrite lookup_insert_eq in Hk. inversion Hk; subst e0. exact (Hnew c Hc).
      * rewrite lookup_insert_ne in Hk by exact Hne. exact (He k e c Hk Hc).
    + exact (He k e c Hk Hc).
  - intros k i c Hk Hc. rewrite Hcat.
    destruct Hinc as [(k0 & i0 & Hs' & Hnew) | Hs']; rewrite Hs' in Hk.
    + destruct (decide (k0 = k)) as [-> | Hne].
      * rewrite lookup_insert_eq in Hk. inversion Hk; subst i0. exact (Hnew c Hc).
      * rewrite lookup_insert_ne in Hk by exact Hne. exact (Hi k i c Hk Hc).
    + exact (Hi k i c Hk Hc).
Qed.

Lemma handle_keeps_refs (r : request) (s : Store) :
  category_refs_ok s -> category_refs_ok (handle r s).1.
Proof.
  intros Hok.
  destruct (handle r s) as [s' [err | []]] eqn:H; cbn [fst].
  { rewrite (handle_failure_restores r s s' err H). exact Hok. }
  assert (Hsame : forall s1, categories s1 = categories s -> expenses s1 = expenses s ->
                             incomes s1 = incomes s -> category_refs_ok s1).
  { intros s1 Hc He Hi. apply (refs_after_entry s s1 Hok Hc); right; assumption. }
  destruct r as [user from_account to_account amount | user from_id to_id amount
                | user contact account amount ty | user debt_id account amount
                | user account category title amount | user pk title amount category
                | user pk | user account category source amount];
    cbn [handle] in H.
  - destruct (transfer_money_outcome user from_account to_account amount s)
      as [E | [[_ E] | (src & dst & _ & _ & _ & _ & _ & [[_ E] | [_ E]])]];
      rewrite E in H; inversion H. apply Hsame; reflexivity.
  - destruct (process_transfer_outcome user from_id to_id amount s)
      as [[err0 E] | (fa & ta & src & dst & _ & _ & _ & _ & _ & _ & E)];
      rewrite E in H; inversion H. apply Hsame; reflexivity.
  - destruct (add_debt_outcome user contact account amount ty s)
      as [[err0 E] | (a & ct & _ & _ & [[_ E] | (_ & _ & E)])];
      rewrite E in H; inversion H; apply Hsame; reflexivity.
  - destruct (make_payment_outcome user debt_id account amount s)
      as [E | (d & _ & _ & [[_ E] | [_ [[_ E] | (a & _ & [(_ & _ & E) | [_ E]])]]])];
      rewrite E in H; inversion H. apply Hsame; reflexivity.
  - destruct (add_expense_outcome user account category title amount s)
      as [E | (a & c & _ & _ & Hc & _ & [[_ E] | [_ E]])];
      rewrite E in H; inversion H.
    eapply (refs_after_entry s); [exact Hok | reflexivity | left | right; reflexivity].
    eexists _, _. split; [reflexivity |].
    intros c0 Hc0. cbn in Hc0. inversion Hc0; subst c0. rewrite Hc. eauto.
  - destruct (edit_expense_outcome user pk category title amount s)
      as [[err E] | (e & c & _ & _ & Hc & _ & [E | (a & b & _ & _ & E)])];
      rewrite E in H; inversion H;
      (eapply (refs_after_entry s); [exact Hok | reflexivity | left | right; reflexivity];
       eexists _, _; split; [reflexivity |];
       intros c0 Hc0; cbn in Hc0; inversion Hc0; subst c0; rewrite Hc; eauto).
  - destruct (delete_expense_outcome user pk s)
      as [E | (e & Hex & _ & [[_ E] | (a & _ & E)])];
      rewrite E in H; inversion H.
    eapply (refs_after_entry s); [exact Hok | reflexivity | left | right; reflexivity].
    eexists _, _. split; [reflexivity |].
    intros c0 Hc0. cbn in Hc0. destruct Hok as [He _]. exact (He pk e c0 Hex Hc0).
  - destruct (income_outcome user account category source amount s)
      as [[_ E] | (_ & _ & [E | (a & c & _ & _ & Hc & _ & E)])];
      rewrite E in H; inversion H.
    eapply (refs_after_entry s); [exact Hok | reflexivity | right; reflexivity | left].
    eexists _, _. split; [reflexivity |].
    intros c0 Hc0. cbn in Hc0. inversion Hc0; subst c0. rewrite Hc. eauto.
Qed.

Lemma delete_category_outcome (user pk : positive) (s : Store) :
  let r := delete_category user pk s in
  r = (s, inl Http404) \/
  ((map_Exists (fun _ e => exp_category e = Some pk) (expenses s) \/
    map_Exists (fun _ i => inc_category i = Some pk) (incomes s)) /\
   r = (s, inr false)) \/
  (~ map_Exists (fun _ e => exp_category e = Some pk) (expenses s) /\
   ~ map_Exists (fun _ i => inc_category i = Some pk) (incomes s) /\
   r = (set_categories (delete pk) s, inr true)).
Proof.
  intros r.
  assert (Hr : r = delete_category user pk s) by reflexivity.
  clearbody r. revert Hr.
  unfold delete_category, mbind at 1, M_bind at 1.
  destruct (get_object_cases categories cat_user pk user s) as [E | (c & _ & _ & E)];
    rewrite E; [intros ->; left; reflexivity |].
  step. unfold mbind, M_bind, get_store. cbn [fst].
  destruct (bool_decide_reflect
              (map_Exists (fun _ e => exp_category e = Some pk) (expenses s))) as [He | He].
  { intros ->. right; left. split; [left; exact He | reflexivity]. }
  destruct (bool_decide_reflect
              (map_Exists (fun _ i => inc_category i = Some pk) (incomes s))) as [Hi | Hi].
  { intros ->. right; left. split; [right; exact Hi | reflexivity]. }
  intros ->. right; right. repeat split; assumption.
Qed.

(** X19: a category named by an expense or an income is never removed.  If
    every reference names a category in the table, this is still so after
    any request and after any [delete_category]; and [delete_category] on a
    category that an expense names, active or deactivated, changes
    nothing. *)
Theorem category_references_stay_valid (s : Store) :
  category_refs_ok s ->
  (forall r, category_refs_ok (handle r s).1) /\
  (forall user pk, category_refs_ok (delete_category user pk s).1) /\
  (forall user pk k e,
     expenses s !! k = Some e -> exp_category e = Some pk ->
     (delete_category user pk s).1 = s /\ (delete_category user pk s).2 <> inr true).
Proof.
  intros Hok. split; [| split].
  - intros r. exact (handle_keeps_refs r s Hok).
  - intros user pk.
    destruct (delete_category_outcome user pk s) as [E | [[_ E] | (He & Hi & E)]];
      rewrite E; cbn [fst]; try exact Hok.
    destruct Hok as [Hoe Hoi]. split.
    + intros k e c Hk Hc. cbn [categories set_categories].
      rewrite lookup_delete_ne; [exact (Hoe k e c Hk Hc) |].
      intros <-. apply He. exact (map_Exists_lookup_2 _ _ k e Hk Hc).
    + intros k i c Hk Hc. cbn [categories set_categories].
      rewrite lookup_delete_ne; [exact (Hoi k i c Hk Hc) |].
      intros <-. apply Hi. exact (map_Exists_lookup_2 _ _ k i Hk Hc).
  - intros user pk k e Hk Hc.
    destruct (delete_category_outcome user pk s) as [E | [[_ E] | (He & _ & E)]];
      rewrite E; cbn [fst snd]; try (split; [reflexivity | discriminate]).
    exfalso. apply He. exact (map_Exists_lookup_2 _ _ k e Hk Hc).
Qed.

Lemma sample_store_refs_ok : category_refs_ok sample_store.
Proof.
  split; intros k x c Hk; cbn in Hk; rewrite lookup_empty in Hk; discriminate.
Qed.

Lemma category_references_stay_valid_witness :
  category_refs_ok spent_store /\
  category_refs_ok (handle (DeleteExpense 1 1) spent_store).1 /\
  (exp_is_active <$> expenses (handle (DeleteExpense 1 1) spent_store).1 !! 1%positive)
    = Some false /\
  (delete_category 1 1 (handle (DeleteExpense 1 1) spent_store).1).1
    = (handle (DeleteExpense 1 1) spent_store).1.
Proof.
  assert (H1 : category_refs_ok (handle (AddIncome 1 1 1 "gift" 10000) sample_store).1)
    by (apply (category_references_stay_valid sample_store sample_store_refs_ok)).
  assert (H2 : category_refs_ok spent_store)
    by (apply (category_references_stay_valid _ H1 ) with (r := AddExpense 1 1 1 "rice" 10000)).
  assert (H3 : category_refs_ok (handle (DeleteExpense 1 1) spent_store).1)
    by (apply (category_references_stay_valid _ H2)).
  split; [exact H2 |]. split; [exact H3 |]. split; [vm_compute; reflexivity |].
  destruct (category_references_stay_valid _ H3) as (_ & _ & Hlinked).
  apply (Hlinked 1%positive 1%positive 1%positive
           (mkExpense 1 1 (Some 1%positive) "rice" 10000 false));
    [vm_compute; reflexivity | reflexivity].
Defined.

(** ** Account names *)

Lemma names_unique_same_accounts (s s' : Store) :
  names_unique s -> same_accounts s s' -> names_unique s'.
Proof.
  intros Hu Hsame k1 k2 a1 a2 H1 H2 Huser Hname.
  pose proof (Hsame k1) as S1. pose proof (Hsame k2) as S2.
  rewrite H1 in S1. rewrite H2 in S2.
  destruct (accounts s !! k1) as [b1 |] eqn:B1; [| contradiction].
  destruct (accounts s !! k2) as [b2 |] eqn:B2; [| contradiction].
  destruct S1 as (U1 & N1 & _), S2 as (U2 & N2 & _).
  apply (Hu k1 k2 b1 b2 B1 B2); congruence.
Qed.

Lemma names_unique_rewrite (s s' : Store) (k : positive) (a a' : Account) :
  names_unique s -> accounts s !! k = Some a ->
  acc_user a' = acc_user a -> acc_name a' = acc_name a ->
  accounts s' = <[k := a']> (accounts s) ->
  names_unique s'.
Proof.
  intros Hu Ha Huser Hname Hs' k1 k2 a1 a2 H1 H2 Hu12 Hn12.
  rewrite Hs' in H1, H2.
  assert (Hold : forall j x, <[k := a']> (accounts s) !! j = Some x ->
            exists y, accounts s !! j = Some y /\ acc_user y = acc_user x /\
                      acc_name y = acc_name x).
  { intros j x Hj. destruct (decide (k = j)) as [<- | Hne].
    - rewrite lookup_insert_eq in Hj. inversion Hj; subst x. exists a. auto.
    - rewrite lookup_insert_ne in Hj by exact Hne. exists x. auto. }
  destruct (Hold k1 a1 H1) as (b1 & B1 & U1 & N1).
  destruct (Hold k2 a2 H2) as (b2 & B2 & U2 & N2).
  apply (Hu k1 k2 b1 b2 B1 B2); congruence.
Qed.

(** X20: no two accounts of one user ever share a name.  Creating an account
    under a name the user already has is refused with [IntegrityError] and
    changes nothing; and when the names are unique they stay unique after
    creating an account, after deactivating one and after any sequence of
    requests. *)
Theorem account_names_stay_unique (s : Store) :
  names_unique s ->
  (forall user name balance,
     names_unique (accounts_dashboard_create_account user name balance s).1) /\
  (forall user pk, names_unique (account_delete user pk s).1) /\
  (forall rs, names_unique (handle_all rs s)) /\
  (forall user name balance k a,
     accounts s !! k = Some a -> acc_user a = user -> acc_name a = name ->
     accounts_dashboard_create_account user name balance s = (s, inl IntegrityError)).
Proof.
  intros Hu. split; [| split; [| split]].
  - intros user name balance. unfold accounts_dashboard_create_account.
    destruct (bool_decide_reflect
                (map_Exists (fun _ a => acc_user a = user /\ acc_name a = name)
                   (accounts s))) as [Hex | Hnew]; cbn [fst]; [exact Hu |].
    intros k1 k2 a1 a2 H1 H2 Hu12 Hn12. cbn [accounts set_accounts] in H1, H2.
    pose proof (new_pk_fresh (accounts s)) as Hfresh.
    destruct (decide (new_pk (accounts s) = k1)) as [E1 | N1];
      destruct (decide (new_pk (accounts s) = k2)) as [E2 | N2].
    + congruence.
    + exfalso. subst k1. rewrite lookup_insert_eq in H1. inversion H1; subst a1.
      rewrite lookup_insert_ne in H2 by exact N2. apply Hnew.
      apply (map_Exists_lookup_2 _ _ k2 a2 H2). cbn in Hu12, Hn12. split; congruence.
    + exfalso. subst k2. rewrite lookup_insert_eq in H2. inversion H2; subst a2.
      rewrite lookup_insert_ne in H1 by exact N1. apply Hnew.
      apply (map_Exists_lookup_2 _ _ k1 a1 H1). cbn in Hu12, Hn12. split; congruence.
    + rewrite lookup_insert_ne in H1 by exact N1.
      rewrite lookup_insert_ne in H2 by exact N2.
      exact (Hu k1 k2 a1 a2 H1 H2 Hu12 Hn12).
  - intros user pk. unfold account_delete, mbind, M_bind.
    destruct (get_object_cases accounts acc_user pk user s) as [E | (a & Ha & _ & E)];
      rewrite E; cbn [fst]; [exact Hu |].
    apply (names_unique_rewrite s _ pk a
             (mkAccount (acc_user a) (acc_name a) (balance a) false) Hu Ha);
      reflexivity.
  - intros rs.
    exact (names_unique_same_accounts s _ Hu (handle_all_same_accounts rs s)).
  - intros user name balance k a Ha Hau Han. unfold accounts_dashboard_create_account.
    destruct (bool_decide_reflect
                (map_Exists (fun _ a => acc_user a = user /\ acc_name a = name)
                   (accounts s))) as [Hex | Hnew]; [reflexivity |].
    exfalso. apply Hnew. apply (map_Exists_lookup_2 _ _ k a Ha). split; assumption.
Qed.

Lemma sample_store_accounts (k : positive) (a : Account) :
  accounts sample_store !! k = Some a ->
  (k = 1%positive /\ a = mkAccount 1 "cash" 50000 true) \/
  (k = 2%positive /\ a = mkAccount 1 "bank" 0 true) \/
  (k = 3%positive /\ a = mkAccount 2 "wallet" 1000 true).
Proof.
  cbn [accounts sample_store]. intros H.
  apply lookup_insert_Some in H. destruct H as [[<- <-] | [_ H]]; [left; split; reflexivity |].
  apply lookup_insert_Some in H.
  destruct H as [[<- <-] | [_ H]]; [right; left; split; reflexivity |].
  apply lookup_singleton_Some in H. destruct H as [<- <-]. right; right; split; reflexivity.
Qed.

Lemma sample_store_names_unique : names_unique sample_store.
Proof.
  intros k1 k2 a1 a2 H1 H2 Hu Hn.
  destruct (sample_store_accounts k1 a1 H1) as [[-> ->] | [[-> ->] | [-> ->]]];
    destruct (sample_store_accounts k2 a2 H2) as [[-> ->] | [[-> ->] | [-> ->]]];
    try reflexivity; cbn in Hu, Hn; discriminate.
Qed.

Lemma account_names_stay_unique_witness :
  accounts_dashboard_create_account 1 "cash" 0 sample_store
    = (sample_store, inl IntegrityError) /\
  names_unique (accounts_dashboard_create_account 2 "cash" (-500) sample_store).1 /\
  (accounts_dashboard_create_account 2 "cash" (-500) sample_store).2 = inr 4%positive.
Proof.
  destruct (account_names_stay_unique sample_store sample_store_names_unique)
    as (Hcreate & _ & _ & Hdup).
  split; [| split; [apply Hcreate | vm_compute; reflexivity]].
  apply (Hdup 1%positive "cash"%string 0 1%positive (mkAccount 1 "cash" 50000 true));
    reflexivity.
Defined.

(** ** The lists of the debt page *)

(** X21: where a debt shows on the debt page after a payment on it went
    through.  An open debt paid to the last unit is listed under "settled"
    and under neither "active" nor "partial"; paid less than what remained,
    it is listed under "active", not under "settled", and under "partial"
    exactly when what remains differs from the initial amount.  Any other
    status value lists every debt. *)
Theorem payment_moves_debt_between_lists (user debt_id account : positive) (amount : Z)
    (s s' : Store) (d : Debt) :
  debt_dashboard_make_payment user debt_id account amount s = (s', inr tt) ->
  debts s !! debt_id = Some d -> is_settled d = false ->
  exists d',
    debts s' !! debt_id = Some d' /\
    remaining_amount d' = remaining_amount d - amount /\
    (amount = remaining_amount d ->
     debt_listed "settled" d' = true /\ debt_listed "active" d' = false /\
     debt_listed "partial" d' = false) /\
    (amount < remaining_amount d ->
     debt_listed "active" d' = true /\ debt_listed "settled" d' = false /\
     (debt_listed "partial" d' = true <->
      remaining_amount d - amount <> initial_amount d)) /\
    (forall status,
       status <> "active"%string -> status <> "settled"%string ->
       status <> "partial"%string -> debt_listed status d' = true).
Proof.
  intros H Hd Hopen.
  destruct (make_payment_outcome user debt_id account amount s)
    as [E | (d0 & Hd0 & _ & [[_ E] | [_ [[_ E] | (a & _ & [(_ & _ & E) | [_ E]])]]])];
    rewrite E in H; try discriminate H; injection H as Hs'.
  rewrite Hd in Hd0. inversion Hd0; subst d0.
  exists (apply_payment d amount). split; [rewrite <- Hs'; apply lookup_insert_eq |].
  unfold apply_payment, debt_listed. cbn [with_remaining remaining_amount].
  change (String.eqb "settled" "active") with false.
  change (String.eqb "settled" "settled") with true.
  change (String.eqb "active" "active") with true.
  change (String.eqb "partial" "active") with false.
  change (String.eqb "partial" "settled") with false.
  change (String.eqb "partial" "partial") with true.
  cbv iota.
  destruct (Z.eqb_spec (remaining_amount d - amount) 0) as [Hz | Hnz];
    cbn [with_settled with_remaining is_settled remaining_amount initial_amount negb andb].
  - split; [reflexivity |]. split; [intros _; repeat split |]. split; [intros Hlt; lia |].
    intros status Ha Hs Hp.
    destruct (String.eqb_spec status "active"); [contradiction |].
    destruct (String.eqb_spec status "settled"); [contradiction |].
    destruct (String.eqb_spec status "partial"); [contradiction | reflexivity].
  - rewrite Hopen. cbn [negb andb].
    split; [reflexivity |]. split; [intros Heq; lia |]. split.
    + intros _. split; [reflexivity |]. split; [reflexivity |].
      destruct (Z.eqb_spec (remaining_amount d - amount) (initial_amount d));
        cbn [negb]; split; intros; congruence.
    + intros status Ha Hs Hp.
      destruct (String.eqb_spec status "active"); [contradiction |].
      destruct (String.eqb_spec status "settled"); [contradiction |].
      destruct (String.eqb_spec status "partial"); [contradiction | reflexivity].
Qed.

Lemma payment_moves_debt_between_lists_witness :
  exists d',
    debts (debt_dashboard_make_payment 1 1 2 60000 partly_paid_store).1 !! 1%positive
      = Some d' /\
    remaining_amount d' = 60000 - 60000 /\
    debt_listed "settled" d' = true /\ debt_listed "active" d' = false /\
    debt_listed "partial" d' = false.
Proof.
  destruct (payment_moves_debt_between_lists 1 1 2 60000 partly_paid_store
              (debt_dashboard_make_payment 1 1 2 60000 partly_paid_store).1
              (mkDebt 1 1 100000 60000 "payable" 2 false))
    as (d' & Hd' & Hr & Hfull & _);
    [vm_compute; reflexivity | vm_compute; reflexivity | reflexivity |].
  exists d'. split; [exact Hd' |]. split; [exact Hr |]. apply Hfull. reflexivity.
Defined.

(** ** The two transfer views *)



(** ** The views that do check the owner *)

(** X23: the views that look their rows up with the acting user refuse a row
    of another user and change nothing: the source account of a dashboard
    transfer, the account of a new expense, the debt to pay, the expense to
    edit or to deactivate.  The lookup raises [Http404].  [accounts_dashboard],
    [add_expense] and [debt_dashboard] catch it with every other exception:
    the client gets the page with an error message.  [edit_expense] and
    [delete_expense] let it through: the client gets a 404 page.  In
    [edit_expense] the category is looked up after the balance was adjusted;
    with a category of another user and an amount edited down, the deposit
    already made is taken back and the answer is a 404 page as well. *)
Theorem owner_checks_refuse_foreign_rows (user : positive) (s : Store) :
  (forall from_account to_account amount a,
     accounts s !! from_account = Some a -> acc_user a <> user ->
     handle (TransferMoney user from_account to_account amount) s = (s, inl Http404) /\
     respond (TransferMoney user from_account to_account amount) (inl Http404)
       = ErrorMessage Http404) /\
  (forall account category title amount a,
     accounts s !! account = Some a -> acc_user a <> user ->
     handle (AddExpense user account category title amount) s = (s, inl Http404) /\
     respond (AddExpense user account category title amount) (inl Http404)
       = ErrorMessage Http404) /\
  (forall debt_id account amount d,
     debts s !! debt_id = Some d -> debt_user d <> user ->
     handle (MakePayment user debt_id account amount) s = (s, inl Http404) /\
     respond (MakePayment user debt_id account amount) (inl Http404)
       = ErrorMessage Http404) /\
  (forall pk title amount category e,
     expenses s !! pk = Some e -> exp_user e <> user ->
     handle (EditExpense user pk title amount category) s = (s, inl Http404) /\
     respond (EditExpense user pk title amount category) (inl Http404) = NotFound) /\
  (forall pk e,
     expenses s !! pk = Some e -> exp_user e <> user ->
     handle (DeleteExpense user pk) s = (s, inl Http404) /\
     respond (DeleteExpense user pk) (inl Http404) = NotFound) /\
  (forall pk title amount category e a c,
     expenses s !! pk = Some e -> exp_user e = user ->
     accounts s !! exp_account e = Some a ->
     categories s !! category = Some c -> cat_user c <> user ->
     float_keeps amount (exp_amount e) = true -> amount < exp_amount e ->
     (acc ← related accounts (exp_account e) None;
      deposit_float acc (float_sub (float_of (exp_amount e)) (float_of amount))) s
       = (saved (exp_account e) (with_balance a (balance a + (exp_amount e - amount))) s,
          inr tt) /\
     handle (EditExpense user pk title amount category) s = (s, inl Http404)).
Proof.
  destruct (guarded_views_reject_foreign user s) as (H1 & H2 & H3 & H4 & H5).
  split; [| split; [| split; [| split; [| split]]]].
  - intros from_account to_account amount a Ha Hu.
    split; [exact (H1 from_account to_account amount a Ha Hu) | reflexivity].
  - intros account category title amount a Ha Hu.
    split; [exact (H2 account category title amount a Ha Hu) | reflexivity].
  - intros debt_id account amount d Hd Hu.
    split; [exact (H5 debt_id account amount d Hd Hu) | reflexivity].
  - intros pk title amount category e He Hu.
    split; [exact (H3 pk title amount category e He Hu) | reflexivity].
  - intros pk e He Hu. split; [exact (H4 pk e He Hu) | reflexivity].
  - intros pk title amount category e a c He Heu Ha Hc Hcu Hk Hlt.
    destruct (float_keeps_spec amount (exp_amount e) Hk) as (_ & _ & Hdown & _).
    destruct (Hdown Hlt) as (Hgt' & Hlt' & Hn). unfold edit_decimal in Hn.
    assert (Hdep : (acc ← related accounts (exp_account e) None;
                    deposit_float acc (float_sub (float_of (exp_amount e)) (float_of amount)))
                     s
                   = (saved (exp_account e)
                        (with_balance a (balance a + (exp_amount e - amount))) s, inr tt)).
    { unfold mbind, M_bind. rewrite (related_read accounts (exp_account e) a s Ha).
      rewrite deposit_float_eq. cbn [fst snd].
      rewrite (quantize_add_near (balance a) (exp_amount e - amount) _ Hn). reflexivity. }
    split; [exact Hdep |].
    cbn [handle]. unfold edit_expense, mbind at 1, M_bind at 1.
    rewrite (get_object_found expenses exp_user pk user e s He Heu). step.
    unfold atomic, mbind at 1, M_bind at 1. cbv zeta. rewrite Hgt', Hlt'.
    rewrite Hdep. step. unfold mbind at 1, M_bind at 1.
    rewrite (get_object_foreign categories cat_user category user c (saved _ _ s) Hc Hcu).
    reflexivity.
Qed.

Lemma owner_checks_refuse_foreign_rows_witness :
  handle (TransferMoney 2 1 3 20000) sample_store = (sample_store, inl Http404) /\
  respond (TransferMoney 2 1 3 20000) (handle (TransferMoney 2 1 3 20000) sample_store).2
    = ErrorMessage Http404 /\
  handle (AddExpense 2 1 1 "rice" 100) sample_store = (sample_store, inl Http404) /\
  handle (DeleteExpense 2 1) spent_store = (spent_store, inl Http404) /\
  respond (DeleteExpense 2 1) (handle (DeleteExpense 2 1) spent_store).2 = NotFound.
Proof.
  destruct (owner_checks_refuse_foreign_rows 2 sample_store) as (Ht & Ha & _).
  destruct (owner_checks_refuse_foreign_rows 2 spent_store) as (_ & _ & _ & _ & Hd & _).
  destruct (Ht 1%positive 3%positive 20000 (mkAccount 1 "cash" 50000 true)) as [T _];
    [reflexivity | discriminate |].
  destruct (Ha 1%positive 1%positive "rice"%string 100 (mkAccount 1 "cash" 50000 true))
    as [A _]; [reflexivity | discriminate |].
  destruct (Hd 1%positive (mkExpense 1 1 (Some 1%positive) "rice" 10000 true)) as [D _];
    [vm_compute; reflexivity | discriminate |].
  split; [exact T |]. split; [rewrite T; reflexivity |].
  split; [exact A |]. split; [exact D |]. rewrite D. reflexivity.
Defined.
